(** * A model of [generate_pdf.py]: the slide composer [SlidePDF] and the deck

    The script subclasses the page-drawing class [FPDF] and issues a fixed
    sequence of drawing calls.  The canvas is modelled as an explicit record
    that is threaded through every call; each drawing primitive appends one
    operation to the content of the current page.  A method of the Python
    class becomes a computation in a small state-and-exception monad over
    that record.

    Lengths are millimetres.  Python mixes [int] and [float] here; both are
    idealised as exact rationals ([Q]). *)

From Stdlib Require Import String Ascii List ZArith QArith Qminmax Lia Lqa Bool.
From Stdlib Require Import DecimalString Sorted.
Import ListNotations.

Open Scope string_scope.
Open Scope Q_scope.

(** ** Python strings *)

Module PyStr.

(** [s.startswith(p)] *)
Fixpoint startswith (p s : string) : bool :=
  match p, s with
  | EmptyString, _ => true
  | String a p', String b s' => Ascii.eqb a b && startswith p' s'
  | String _ _, EmptyString => false
  end.

(** [s[n:]] *)
Fixpoint drop (n : nat) (s : string) : string :=
  match n, s with
  | O, _ => s
  | S n', String _ s' => drop n' s'
  | S _, EmptyString => EmptyString
  end.

(** [s.find(sub)]: the least index at which [sub] occurs, if any. *)
Fixpoint find (sub s : string) : option nat :=
  if startswith sub s then Some O
  else match s with
       | EmptyString => None
       | String _ s' => option_map S (find sub s')
       end.

(** [s[:n]] *)
Fixpoint take (n : nat) (s : string) : string :=
  match n, s with
  | O, _ => EmptyString
  | S n', String c s' => String c (take n' s')
  | S _, EmptyString => EmptyString
  end.

(** The loop of [str.split(sep)] for a non-empty separator: find the next
    occurrence, cut the piece before it, continue after the separator.
    Every round consumes at least one character, so [fuel] larger than the
    length of the text is never exhausted. *)
Fixpoint split_loop (fuel : nat) (sep s : string) : list string :=
  match fuel with
  | O => [s]
  | S fuel' =>
      match find sep s with
      | None => [s]
      | Some i => take i s :: split_loop fuel' sep (drop (i + String.length sep) s)
      end
  end.

(** [s.split(sep)]; an empty separator raises [ValueError], rendered here
    as [None]. *)
Definition split (s sep : string) : option (list string) :=
  match sep with
  | EmptyString => None
  | _ => Some (split_loop (S (String.length s)) sep s)
  end.

(** [s.count(sub)] for a non-empty [sub]: the number of non-overlapping
    occurrences met by a left-to-right scan.  [skip] counts the characters
    of the occurrence just matched that are still to be passed over. *)
Fixpoint count_scan (skip : nat) (sub s : string) : nat :=
  match s with
  | EmptyString => O
  | String _ s' =>
      match skip with
      | S k => count_scan k sub s'
      | O => if startswith sub s
             then S (count_scan (String.length sub - 1) sub s')
             else count_scan O sub s'
      end
  end.

Definition count (s sub : string) : nat := count_scan O sub s.

(** [sub] occurs in [s] at index [i]. *)
Definition occurs_at (sub s : string) (i : nat) : Prop :=
  (i + String.length sub <= String.length s)%nat /\ startswith sub (drop i s) = true.

(** Truthiness of an optional string argument: [None] and [''] are falsy. *)
Definition truthy (o : option string) : bool :=
  match o with
  | None | Some EmptyString => false
  | Some _ => true
  end.

(** [str(n)] for an integer. *)
Definition str (n : Z) : string := NilZero.string_of_int (Z.to_int n).

End PyStr.

(** ** The canvas: the state of an [FPDF] object *)

Inductive font_family := Helvetica | Courier.
Inductive font_style := Regular (* [''] *) | Bold (* ['B'] *).

Record font := Font { family : font_family; style : font_style; size_pt : Q }.

Definition color := (Z * Z * Z)%type.

Inductive orientation := Portrait (* ['P'] *) | Landscape (* ['L'] *).
Inductive page_format := A3 | A4 | A5.

Inductive align := AlignL (* default *) | AlignC (* ['C'] *) | AlignR (* ['R'] *).
Inductive paint := PaintF (* ['F'] *) | PaintDF (* ['DF'] *).

(** What a drawing primitive leaves on the page.  A shape keeps the draw and
    fill colours current when it was issued, a piece of text the font and
    the text colour: drawing is immediate-mode. *)
Inductive draw_op :=
| Rect (x y w h : Q) (style : paint) (draw fill : color)
| Ellipse (x y w h : Q) (style : paint) (draw fill : color)
| Cell (x y w h : Q) (txt : string) (al : align) (f : font) (text : color)
| MultiCell (x y w h : Q) (txt : string) (f : font) (text : color).

(** The fields of the object that the script reads or writes.  [page] is the
    number of the current page ([0] before the first [add_page]); [log] is
    the content issued so far, each operation with the number of the page it
    went to.  Page formats have their nominal ISO size and the margins the
    nominal centimetre. *)
Record FPDF := mkFPDF {
  page_w : Q;
  page_h : Q;
  l_margin : Q;
  t_margin : Q;
  r_margin : Q;
  b_margin : Q;
  auto_page_break : bool;
  page : nat;
  cur_x : Q;
  cur_y : Q;
  font_family_ : option font_family;
  font_style_ : font_style;
  font_size_pt : Q;
  draw_color : color;
  fill_color : color;
  text_color : color;
  log : list (nat * draw_op)
}.

Definition with_cursor (x' y' : Q) (s : FPDF) : FPDF :=
  mkFPDF (page_w s) (page_h s) (l_margin s) (t_margin s) (r_margin s) (b_margin s)
         (auto_page_break s) (page s) x' y'
         (font_family_ s) (font_style_ s) (font_size_pt s)
         (draw_color s) (fill_color s) (text_color s) (log s).

Definition with_font (fam : option font_family) (sty : font_style) (sz : Q) (s : FPDF) : FPDF :=
  mkFPDF (page_w s) (page_h s) (l_margin s) (t_margin s) (r_margin s) (b_margin s)
         (auto_page_break s) (page s) (cur_x s) (cur_y s)
         fam sty sz
         (draw_color s) (fill_color s) (text_color s) (log s).

Definition with_colors (d f t : color) (s : FPDF) : FPDF :=
  mkFPDF (page_w s) (page_h s) (l_margin s) (t_margin s) (r_margin s) (b_margin s)
         (auto_page_break s) (page s) (cur_x s) (cur_y s)
         (font_family_ s) (font_style_ s) (font_size_pt s)
         d f t (log s).

Definition with_page (n : nat) (s : FPDF) : FPDF :=
  mkFPDF (page_w s) (page_h s) (l_margin s) (t_margin s) (r_margin s) (b_margin s)
         (auto_page_break s) n (cur_x s) (cur_y s)
         (font_family_ s) (font_style_ s) (font_size_pt s)
         (draw_color s) (fill_color s) (text_color s) (log s).

Definition with_log (l : list (nat * draw_op)) (s : FPDF) : FPDF :=
  mkFPDF (page_w s) (page_h s) (l_margin s) (t_margin s) (r_margin s) (b_margin s)
         (auto_page_break s) (page s) (cur_x s) (cur_y s)
         (font_family_ s) (font_style_ s) (font_size_pt s)
         (draw_color s) (fill_color s) (text_color s) l.

Definition with_page_break (auto : bool) (margin : Q) (s : FPDF) : FPDF :=
  mkFPDF (page_w s) (page_h s) (l_margin s) (t_margin s) (r_margin s) margin
         auto (page s) (cur_x s) (cur_y s)
         (font_family_ s) (font_style_ s) (font_size_pt s)
         (draw_color s) (fill_color s) (text_color s) (log s).

(** The font selected at the moment, if [set_font] has been called. *)
Definition current_font (s : FPDF) : option font :=
  match font_family_ s with
  | Some fam => Some (Font fam (font_style_ s) (font_size_pt s))
  | None => None
  end.

(** Everything issued so far, in drawing order. *)
Definition canvas (s : FPDF) : list draw_op := map snd (log s).

(** The content of page [n]. *)
Definition page_ops (n : nat) (s : FPDF) : list draw_op :=
  map snd (filter (fun e => Nat.eqb (fst e) n) (log s)).

(** The contents of the pages [1 .. page s], in order. *)
Definition pages (s : FPDF) : list (list draw_op) :=
  map (fun n => page_ops n s) (seq 1 (page s)).

(** ** Exceptions and the method monad *)

Inductive exn :=
| ValueError      (* [str.split] with an empty separator *)
| NoFontSet.      (* text measured or written before any [set_font] *)

Inductive result (A : Type) :=
| Ok (a : A)
| Raise (e : exn).
Arguments Ok {A} a.
Arguments Raise {A} e.

Definition M (A : Type) : Type := FPDF -> result (A * FPDF).

Definition ret {A} (a : A) : M A := fun s => Ok (a, s).

Definition bind {A B} (m : M A) (k : A -> M B) : M B :=
  fun s => match m s with
           | Ok (a, s') => k a s'
           | Raise e => Raise e
           end.

Definition raise {A} (e : exn) : M A := fun _ => Raise e.

Definition modify (f : FPDF -> FPDF) : M unit := fun s => Ok (tt, f s).

Definition gets {A} (f : FPDF -> A) : M A := fun s => Ok (f s, s).

Declare Scope pdf_scope.
Delimit Scope pdf_scope with pdf.
Notation "v <- m ;; k" := (bind m (fun v => k))
  (at level 100, m at next level, right associativity) : pdf_scope.
Notation "m ;; k" := (bind m (fun _ => k))
  (at level 100, right associativity) : pdf_scope.
Open Scope pdf_scope.

(** [for v in l: body(v)] *)
Fixpoint for_each {A} (l : list A) (body : A -> M unit) : M unit :=
  match l with
  | [] => ret tt
  | v :: l' => body v ;; for_each l' body
  end.

Definition is_ok {A} (r : result A) : bool :=
  match r with Ok _ => true | Raise _ => false end.

(** The state a successful call leaves, [s0] otherwise. *)
Definition state_of {A} (r : result (A * FPDF)) (s0 : FPDF) : FPDF :=
  match r with Ok (_, s) => s | Raise _ => s0 end.

Definition Qlt_bool (a b : Q) : bool := negb (Qle_bool b a).

(** ** The drawing primitives of [FPDF] used by the script

    The library is not part of the repository; its primitives follow their
    documented behaviour.  Two things it computes are kept as parameters: the
    character widths of the core fonts (in 1/1000 of the font size) and the
    number of lines a text block wraps to.  Measuring or writing text while
    no font is selected raises. *)

Section Composer.

Variable cw : font_family -> font_style -> ascii -> Z.
Variable line_count : font -> Q -> string -> nat.

Fixpoint cw_sum (fam : font_family) (sty : font_style) (txt : string) : Z :=
  match txt with
  | EmptyString => 0%Z
  | String c txt' => (cw fam sty c + cw_sum fam sty txt')%Z
  end.

(** The width of [txt] set in [f], in millimetres: the character widths
    summed, scaled by the font size in user units ([size_pt / k] with
    [k = 72 / 25.4]) and divided by 1000. *)
Definition string_width (f : font) (txt : string) : Q :=
  inject_Z (cw_sum (family f) (style f) txt) * size_pt f * (127 # 360000).

(** [FPDF(orientation, unit, format)] for millimetres: the page takes the
    size of the format, turned for landscape; margins of 1 cm, automatic
    page breaks on with a bottom margin of 2 cm, no font, black colours. *)
Definition format_size (fmt : page_format) : Q * Q :=
  match fmt with
  | A3 => (297, 420)
  | A4 => (210, 297)
  | A5 => (148, 210)
  end.

Definition FPDF_init (o : orientation) (fmt : page_format) : FPDF :=
  let '(fw, fh) := format_size fmt in
  let '(pw, ph) := match o with Portrait => (fw, fh) | Landscape => (fh, fw) end in
  mkFPDF pw ph 10 10 10 20 true 0 10 10
         None Regular 12 (0, 0, 0)%Z (0, 0, 0)%Z (0, 0, 0)%Z [].

Definition set_auto_page_break (auto : bool) (margin : Q) : M unit :=
  modify (with_page_break auto margin).

Definition page_break_trigger (s : FPDF) : Q := page_h s - b_margin s.

(** [add_page()]: a new page becomes current and the cursor returns to
    the top-left margin; font and colours carry over. *)
Definition start_page (s : FPDF) : FPDF :=
  with_cursor (l_margin s) (t_margin s) (with_page (S (page s)) s).

Definition add_page : M unit := modify start_page.

Definition out (op : draw_op) : M unit :=
  modify (fun s => with_log (log s ++ [(page s, op)]) s).

Definition set_fill_color (r g b : Z) : M unit :=
  modify (fun s => with_colors (draw_color s) (r, g, b) (text_color s) s).

Definition set_draw_color (r g b : Z) : M unit :=
  modify (fun s => with_colors (r, g, b) (fill_color s) (text_color s) s).

Definition set_text_color (r g b : Z) : M unit :=
  modify (fun s => with_colors (draw_color s) (fill_color s) (r, g, b) s).

(** [set_font(family, style, size)]; a size of [0] keeps the current one. *)
Definition set_font (fam : font_family) (sty : font_style) (size : Q) : M unit :=
  modify (fun s =>
    with_font (Some fam) sty (if Qeq_bool size 0 then font_size_pt s else size) s).

Definition get_y : M Q := gets cur_y.

(** A negative coordinate counts from the far edge of the page. *)
Definition from_edge (extent v : Q) : Q :=
  if Qle_bool 0 v then v else extent + v.

Definition set_x (x : Q) : M unit :=
  modify (fun s => with_cursor (from_edge (page_w s) x) (cur_y s) s).

(** [set_y] also sends the abscissa back to the left margin. *)
Definition set_y (y : Q) : M unit :=
  modify (fun s => with_cursor (l_margin s) (from_edge (page_h s) y) s).

Definition set_xy (x y : Q) : M unit :=
  set_y y ;; set_x x.

Definition rect (x y w h : Q) (style : paint) : M unit :=
  s <- gets id ;;
  out (Rect x y w h style (draw_color s) (fill_color s)).

Definition ellipse (x y w h : Q) (style : paint) : M unit :=
  s <- gets id ;;
  out (Ellipse x y w h style (draw_color s) (fill_color s)).

Definition get_string_width (txt : string) : M Q :=
  fun s => match current_font s with
           | Some f => Ok (string_width f txt, s)
           | None => Raise NoFontSet
           end.

(** The automatic page break taken before a cell of height [h] that would
    cross the bottom margin: the next page becomes current and the cursor
    goes to its top margin; the abscissa is kept. *)
Definition breaks_before (h : Q) (s : FPDF) : bool :=
  auto_page_break s && Qlt_bool (page_break_trigger s) (cur_y s + h).

Definition break_if_needed (h : Q) (s : FPDF) : FPDF :=
  with_cursor (cur_x s)
              (if breaks_before h s then t_margin s else cur_y s)
              (with_page (if breaks_before h s then S (page s) else page s) s).

(** The width a cell takes: a requested width of [0] stands for what is
    left up to the right margin. *)
Definition cell_width (avail w : Q) : Q :=
  if Qeq_bool w 0 then avail else w.

Definition cell (w h : Q) (txt : string) (al : align) (ln : bool) : M unit :=
  fun s0 =>
    match current_font s0 with
    | None => Raise NoFontSet
    | Some f =>
        let s := break_if_needed h s0 in
        let w' := cell_width (page_w s - r_margin s - cur_x s) w in
        let op := Cell (cur_x s) (cur_y s) w' h txt al f (text_color s) in
        let s1 := with_log (log s ++ [(page s, op)]) s in
        Ok (tt, if ln then with_cursor (l_margin s1) (cur_y s1 + h) s1
                else with_cursor (cur_x s1 + w') (cur_y s1) s1)
    end.

(** [multi_cell(w, h, txt)]: the block is recorded whole, an automatic page
    break being considered before its first line; the cursor ends at the left
    margin below its last line. *)
Definition multi_cell (w h : Q) (txt : string) : M unit :=
  fun s0 =>
    match current_font s0 with
    | None => Raise NoFontSet
    | Some f =>
        let s := break_if_needed h s0 in
        let w' := cell_width (page_w s - r_margin s - cur_x s) w in
        let op := MultiCell (cur_x s) (cur_y s) w' h txt f (text_color s) in
        let s1 := with_log (log s ++ [(page s, op)]) s in
        Ok (tt, with_cursor (l_margin s1)
                            (cur_y s1 + h * inject_Z (Z.of_nat (line_count f w' txt))) s1)
    end.

(** ** [class SlidePDF(FPDF)] *)

(** [text.split(highlight)] inside a method. *)
Definition split (text sep : string) : M (list string) :=
  match PyStr.split text sep with
  | Some parts => ret parts
  | None => raise ValueError
  end.

(** [for v in l: acc = body(v, acc)] *)
Fixpoint for_acc {A B} (l : list A) (acc : B) (body : A -> B -> M B) : M B :=
  match l with
  | [] => ret acc
  | v :: l' => acc' <- body v acc ;; for_acc l' acc' body
  end.

(** [SlidePDF()]: landscape A4 in millimetres, automatic page breaks off. *)
Definition SlidePDF_new : FPDF :=
  state_of (set_auto_page_break false 0 (FPDF_init Landscape A4))
           (FPDF_init Landscape A4).

Definition default_bg : color := (26, 26, 46)%Z.

Definition add_slide (bg_color : color) : M unit :=
  add_page ;;
  (let '(r, g, b) := bg_color in set_fill_color r g b) ;;
  rect 0 0 297 210 PaintF.

Definition slide_number (num : Z) : M unit :=
  set_font Helvetica Regular 10 ;;
  set_text_color 150 150 150 ;;
  set_xy 280 195 ;;
  cell 10 10 (PyStr.str num) AlignR false.

Definition title_text (text : string) (y size : Q) : M unit :=
  set_font Helvetica Bold size ;;
  set_text_color 255 107 107 ;;
  set_xy 20 y ;;
  cell 257 20 text AlignC false.

Definition subtitle_text (text : string) (y size : Q) : M unit :=
  set_font Helvetica Regular size ;;
  set_text_color 200 200 200 ;;
  set_xy 20 y ;;
  cell 257 10 text AlignC false.

Definition heading (text : string) (y : Q) : M unit :=
  set_font Helvetica Bold 28 ;;
  set_text_color 255 107 107 ;;
  set_xy 20 y ;;
  cell 257 15 text AlignL false.

Definition body_text (text : string) (x y size : Q) : M unit :=
  set_font Helvetica Regular size ;;
  set_text_color 230 230 230 ;;
  set_xy x y ;;
  multi_cell 257 8 text.

(** [if y:] for an optional number: [None] and zero are falsy. *)
Definition truthy_num (y : option Q) : bool :=
  match y with
  | Some v => negb (Qeq_bool v 0)
  | None => false
  end.

Definition bullet (text : string) (x : Q) (y : option Q) (highlight : option string) : M unit :=
  (match y with
   | Some v => if truthy_num y then set_xy x v else ret tt
   | None => ret tt
   end) ;;
  set_fill_color 255 107 107 ;;
  y0 <- get_y ;;
  ellipse x (y0 + 3) 4 4 PaintF ;;
  y1 <- get_y ;;
  set_xy (x + 8) y1 ;;
  set_font Helvetica Regular 13 ;;
  set_text_color 220 220 220 ;;
  (match highlight with
   | Some hl =>
       if PyStr.truthy highlight then
         parts <- split text hl ;;
         match parts with
         | [part0; part1] =>
             w0 <- get_string_width part0 ;;
             cell w0 8 part0 AlignL false ;;
             set_font Helvetica Bold 13 ;;
             set_text_color 254 202 87 ;;
             w1 <- get_string_width hl ;;
             cell w1 8 hl AlignL false ;;
             set_font Helvetica Regular 13 ;;
             set_text_color 220 220 220 ;;
             cell 0 8 part1 AlignL true
         | _ => cell 0 8 text AlignL true
         end
       else cell 0 8 text AlignL true
   | None => cell 0 8 text AlignL true
   end) ;;
  y2 <- get_y ;;
  set_y (y2 + 2).

Definition box (x y w h : Q) (title : string) (items : list string) : M unit :=
  set_fill_color 40 40 60 ;;
  set_draw_color 80 80 100 ;;
  rect x y w h PaintDF ;;
  set_font Helvetica Bold 14 ;;
  set_text_color 72 219 251 ;;
  set_xy (x + 5) (y + 5) ;;
  cell (w - 10) 8 title AlignL false ;;
  set_font Helvetica Regular 11 ;;
  set_text_color 200 200 200 ;;
  set_xy (x + 8) (y + 18) ;;
  for_each items (fun item =>
    set_fill_color 255 107 107 ;;
    y0 <- get_y ;;
    ellipse (x + 8) (y0 + 2) 3 3 PaintF ;;
    y1 <- get_y ;;
    set_xy (x + 14) y1 ;;
    cell (w - 20) 6 item AlignL true ;;
    y2 <- get_y ;;
    set_y (y2 + 1)).

Definition fee_row (label fee : string) (c : color) (y : Q) : M unit :=
  set_fill_color 40 40 60 ;;
  rect 30 y 237 18 PaintF ;;
  set_font Helvetica Regular 14 ;;
  set_text_color 180 180 180 ;;
  set_xy 35 (y + 4) ;;
  cell 100 10 label AlignL false ;;
  set_font Helvetica Bold 18 ;;
  (let '(r, g, b) := c in set_text_color r g b) ;;
  set_xy 200 (y + 3) ;;
  cell 60 10 fee AlignR false.

Definition stat_box (x y : Q) (number label : string) : M unit :=
  set_fill_color 40 40 60 ;;
  rect x y 70 50 PaintF ;;
  set_font Helvetica Bold 28 ;;
  set_text_color 255 107 107 ;;
  set_xy x (y + 8) ;;
  cell 70 15 number AlignC false ;;
  set_font Helvetica Regular 11 ;;
  set_text_color 150 150 150 ;;
  set_xy x (y + 30) ;;
  cell 70 10 label AlignC false.

Definition tag (text : string) (x y : Q) : M Q :=
  set_fill_color 80 40 40 ;;
  set_draw_color 255 107 107 ;;
  sw <- get_string_width text ;;
  let w := sw + 12 in
  rect x y w 10 PaintDF ;;
  set_font Helvetica Regular 9 ;;
  set_text_color 255 150 150 ;;
  set_xy x (y + 2) ;;
  cell w 6 text AlignC false ;;
  ret (w + 5).

Definition code_box (text : string) (y : Q) : M unit :=
  set_fill_color 20 20 30 ;;
  set_draw_color 60 60 80 ;;
  rect 40 y 217 14 PaintDF ;;
  set_font Courier Regular 12 ;;
  set_text_color 72 219 251 ;;
  set_xy 40 (y + 3) ;;
  cell 217 8 text AlignC false.

(** [x = x0; for t in texts: x += pdf.tag(t, x, y)] *)
Definition tag_run (texts : list string) (x0 y : Q) : M Q :=
  for_acc texts x0 (fun t x => r <- tag t x y ;; ret (x + r)).

(** ** The script: ten slides *)

Definition slide1 : M unit :=
  add_slide default_bg ;;
  set_font Helvetica Regular 11 ;;
  set_text_color 254 202 87 ;;
  set_xy 20 40 ;;
  cell 257 10 "UNISWAP V4 HOOK" AlignC false ;;
  title_text "Sentiment Fee Hook" 55 44 ;;
  subtitle_text "Dynamic fees that adapt to market psychology" 100 18 ;;
  tag_run ["Dynamic Fee"; "Custom Hooks"; "Oracle"; "LP Fees"; "DEX"] 60 130 ;;
  slide_number 1.

Definition slide2 : M unit :=
  add_slide default_bg ;;
  heading "The Problem" 20 ;;
  body_text "Traditional AMMs use fixed fees that are suboptimal in all market conditions." 20 45 16 ;;
  box 20 70 125 70 "Bull Markets (Greed)"
      ["Traders willingly pay more";
       "Fixed 0.3% fees leave money on table";
       "LPs miss potential revenue"] ;;
  box 152 70 125 70 "Bear Markets (Fear)"
      ["Fixed fees kill trading volume";
       "Traders avoid the exchange";
       "LPs earn nothing"] ;;
  slide_number 2.

Definition slide3 : M unit :=
  add_slide default_bg ;;
  heading "Our Solution" 20 ;;
  body_text "Counter-cyclical dynamic fees based on real-time market sentiment" 20 45 16 ;;
  fee_row "Extreme Fear (0)" "0.25% fee" (255, 107, 107)%Z 75 ;;
  fee_row "Neutral (50)" "0.345% fee" (254, 202, 87)%Z 100 ;;
  fee_row "Extreme Greed (100)" "0.44% fee" (29, 209, 161)%Z 125 ;;
  set_font Helvetica Regular 13 ;;
  set_text_color 150 150 150 ;;
  set_xy 20 160 ;;
  cell 257 10 "Maximizes fee x volume across all market cycles" AlignC false ;;
  slide_number 3.

Definition slide4 : M unit :=
  add_slide default_bg ;;
  heading "Architecture" 20 ;;
  box 20 50 125 75 "Off-Chain: Keeper Bot"
      ["Aggregates 8 free data sources";
       "Weighted sentiment scoring";
       "Updates every 4 hours";
       "$0/month data costs"] ;;
  box 152 50 125 75 "On-Chain: Hook Contract"
      ["Uniswap v4 beforeSwap hook";
       "EMA smoothing (anti-manipulation)";
       "Staleness protection (6hr fallback)";
       "Gas-efficient design"] ;;
  code_box "fee = MIN_FEE + (sentimentScore * FEE_RANGE / 100)" 145 ;;
  slide_number 4.

(** One column of slide 5: [y_pos = 70; for item in items: ...; y_pos += 22] *)
Definition source_column (items : list string) (x : Q) : M Q :=
  for_acc items 70 (fun item y_pos =>
    set_fill_color 255 107 107 ;;
    ellipse x (y_pos + 3) 4 4 PaintF ;;
    set_font Helvetica Regular 13 ;;
    set_text_color 220 220 220 ;;
    set_xy (x + 8) y_pos ;;
    cell 100 8 item AlignL false ;;
    ret (y_pos + 22)).

Definition slide5 : M unit :=
  add_slide default_bg ;;
  heading "Sentiment Data Sources" 20 ;;
  body_text "8 free APIs aggregated with weighted scoring" 20 45 14 ;;
  source_column ["Fear & Greed Index (30%)"; "CoinGecko Global (20%)";
                 "CoinGecko Trending (10%)"; "Bitcoin Dominance (10%)"] 25 ;;
  source_column ["DeFi Llama TVL (10%)"; "ETH Price Movement (10%)";
                 "CryptoCompare Social (5%)"; "Blockchain.com Stats (5%)"] 155 ;;
  slide_number 5.

Definition slide6 : M unit :=
  add_slide default_bg ;;
  heading "Security & Anti-Manipulation" 20 ;;
  box 20 50 130 55 "EMA Smoothing"
      ["30% new / 70% historical data";
       "Prevents sudden fee manipulation";
       "Limits single-update impact"] ;;
  box 157 50 120 55 "Anti-Frontrunning"
      ["Randomized update timing";
       "+/- 30 min jitter on updates";
       "Unpredictable execution"] ;;
  set_xy 25 115 ;;
  bullet "Staleness protection: Auto fallback to 0.30% after 6 hours" 25 None None ;;
  bullet "Bounded fees: Always between 0.25% - 0.44%" 25 None None ;;
  bullet "Multi-keeper support: Decentralized update authority" 25 None None ;;
  slide_number 6.

Definition slide7 : M unit :=
  add_slide default_bg ;;
  heading "Tech Stack" 20 ;;
  stat_box 40 55 "50" "Test Cases" ;;
  stat_box 115 55 "8" "Data Sources" ;;
  stat_box 190 55 "$0" "Monthly Cost" ;;
  tag_run ["Solidity 0.8.26"; "Foundry"; "Uniswap v4"; "TypeScript";
           "ethers.js"; "OpenZeppelin"] 40 120 ;;
  set_font Helvetica Regular 12 ;;
  set_text_color 150 150 150 ;;
  set_xy 20 150 ;;
  cell 257 10 "Supports: Ethereum, Arbitrum, Base, Optimism, Polygon + Testnets" AlignC false ;;
  slide_number 7.

Definition slide8 : M unit :=
  add_slide default_bg ;;
  heading "Decentralization Roadmap" 20 ;;
  set_font Helvetica Bold 12 ;;
  set_text_color 72 219 251 ;;
  set_xy 25 50 ;;
  cell 100 8 "v1 - Current (Implemented)" AlignL false ;;
  set_font Helvetica Regular 11 ;;
  set_text_color 200 200 200 ;;
  set_xy 30 60 ;;
  cell 0 6 "- Multi-keeper support (multiple authorized addresses)" AlignL false ;;
  set_xy 30 68 ;;
  cell 0 6 "- Randomized timing jitter (anti-frontrunning)" AlignL false ;;
  set_xy 30 76 ;;
  cell 0 6 "- EMA smoothing + staleness fallback" AlignL false ;;
  set_font Helvetica Bold 12 ;;
  set_text_color 254 202 87 ;;
  set_xy 25 90 ;;
  cell 100 8 "v1.5 - Short-term" AlignL false ;;
  set_font Helvetica Regular 11 ;;
  set_text_color 200 200 200 ;;
  set_xy 30 100 ;;
  cell 0 6 "- Chainlink Automation for reliable execution" AlignL false ;;
  set_xy 30 108 ;;
  cell 0 6 "- Multi-sig keeper (3-of-5 trusted updaters)" AlignL false ;;
  set_font Helvetica Bold 12 ;;
  set_text_color 255 107 107 ;;
  set_xy 25 122 ;;
  cell 100 8 "v2 - Medium-term" AlignL false ;;
  set_font Helvetica Regular 11 ;;
  set_text_color 200 200 200 ;;
  set_xy 30 132 ;;
  cell 0 6 "- Chainlink Functions for trustless off-chain compute" AlignL false ;;
  set_xy 30 140 ;;
  cell 0 6 "- Multiple independent data aggregators" AlignL false ;;
  set_font Helvetica Bold 12 ;;
  set_text_color 167 139 250 ;;
  set_xy 25 154 ;;
  cell 100 8 "v3 - Long-term" AlignL false ;;
  set_font Helvetica Regular 11 ;;
  set_text_color 200 200 200 ;;
  set_xy 30 164 ;;
  cell 0 6 "- Fully decentralized oracle network" AlignL false ;;
  set_xy 30 172 ;;
  cell 0 6 "- DAO governance for parameter updates" AlignL false ;;
  slide_number 8.

Definition slide9 : M unit :=
  add_slide default_bg ;;
  heading "Quick Start" 20 ;;
  set_font Helvetica Bold 12 ;;
  set_text_color 72 219 251 ;;
  set_xy 40 55 ;;
  cell 100 8 "Run Tests" AlignL false ;;
  code_box "forge test" 65 ;;
  set_xy 40 95 ;;
  cell 100 8 "Local Demo" AlignL false ;;
  code_box "bash demo.sh" 105 ;;
  set_xy 40 135 ;;
  cell 100 8 "Deploy & Run Keeper" AlignL false ;;
  code_box "forge script script/DeployFullDemo.s.sol --broadcast" 145 ;;
  code_box "cd keeper && npx ts-node src/multi-source-keeper.ts" 165 ;;
  slide_number 9.

Definition slide10 : M unit :=
  add_slide default_bg ;;
  title_text "Thank You" 60 48 ;;
  subtitle_text "Sentiment-Responsive Fee Hook for Uniswap v4" 95 18 ;;
  set_font Helvetica Regular 14 ;;
  set_text_color 150 150 150 ;;
  set_xy 20 125 ;;
  cell 257 10 "Dynamic fees that adapt to market psychology" AlignC false ;;
  set_xy 20 138 ;;
  cell 257 10 "Maximizing LP revenue across all market cycles" AlignC false ;;
  x <- tag "MIT License" 105 165 ;;
  tag "Open Source" (105 + x) 165 ;;
  slide_number 10.

Definition deck : M unit :=
  slide1 ;; slide2 ;; slide3 ;; slide4 ;; slide5 ;;
  slide6 ;; slide7 ;; slide8 ;; slide9 ;; slide10.

(** The document as it stands when the script reaches [pdf.output]. *)
Definition main : result (unit * FPDF) := deck SlidePDF_new.

End Composer.

(** ** The metrics of the core fonts

    The standard Adobe metrics of Helvetica, Helvetica-Bold and Courier for
    the printable ASCII range, which covers every literal of the script;
    any other character is given the width of a space. *)

Definition helvetica_widths : list Z :=
  [278; 278; 355; 556; 556; 889; 667; 191; 333; 333; 389; 584; 278; 333; 278; 278;
   556; 556; 556; 556; 556; 556; 556; 556; 556; 556; 278; 278; 584; 584; 584; 556;
   1015; 667; 667; 722; 722; 667; 611; 778; 722; 278; 500; 667; 556; 833; 722; 778;
   667; 778; 722; 667; 611; 722; 667; 944; 667; 667; 611; 278; 278; 278; 469; 556;
   333; 556; 556; 500; 556; 556; 278; 556; 556; 222; 222; 500; 222; 833; 556; 556;
   556; 556; 333; 500; 278; 556; 500; 722; 500; 500; 500; 334; 260; 334; 584]%Z.

Definition helvetica_bold_widths : list Z :=
  [278; 333; 474; 556; 556; 889; 722; 238; 333; 333; 389; 584; 278; 333; 278; 278;
   556; 556; 556; 556; 556; 556; 556; 556; 556; 556; 333; 333; 584; 584; 584; 611;
   975; 722; 722; 722; 722; 667; 611; 778; 722; 278; 556; 722; 611; 833; 722; 778;
   667; 778; 722; 667; 611; 722; 667; 944; 667; 667; 611; 333; 278; 333; 584; 556;
   333; 556; 611; 556; 611; 556; 333; 611; 611; 278; 278; 556; 278; 889; 611; 611;
   611; 611; 389; 556; 333; 611; 556; 778; 556; 556; 500; 389; 280; 389; 584]%Z.

Definition core_cw (fam : font_family) (sty : font_style) (c : ascii) : Z :=
  match fam, sty with
  | Courier, _ => 600%Z
  | Helvetica, Regular => nth (nat_of_ascii c - 32) helvetica_widths 278%Z
  | Helvetica, Bold => nth (nat_of_ascii c - 32) helvetica_bold_widths 278%Z
  end.

(** A text block that fits on one line. *)
Definition single_line (f : font) (w : Q) (txt : string) : nat := 1.

(** ** Reading a page back *)

Definition is_bold_cell (op : draw_op) : bool :=
  match op with
  | Cell _ _ _ _ _ _ f _ => match style f with Bold => true | Regular => false end
  | _ => false
  end.

Definition cell_text (op : draw_op) : option string :=
  match op with
  | Cell _ _ _ _ txt _ _ _ => Some txt
  | _ => None
  end.

(** The headline of a page: the text of its first bold cell. *)
Definition headline (ops : list draw_op) : option string :=
  match filter is_bold_cell ops with
  | op :: _ => cell_text op
  | [] => None
  end.

(** The footer of a page: the text of its last cell. *)
Definition footer (ops : list draw_op) : option string :=
  match rev ops with
  | op :: _ => cell_text op
  | [] => None
  end.

(** The horizontal extent [x, x + w] of a rectangle. *)
Definition h_extent (op : draw_op) : Q * Q :=
  match op with
  | Rect x _ w _ _ _ _ => (x, x + w)
  | Ellipse x _ w _ _ _ _ => (x, x + w)
  | Cell x _ w _ _ _ _ _ => (x, x + w)
  | MultiCell x _ w _ _ _ _ => (x, x + w)
  end.

Definition is_rect (op : draw_op) : bool :=
  match op with Rect _ _ _ _ _ _ _ => true | _ => false end.

Definition rect_width (op : draw_op) : Q :=
  match op with Rect _ _ w _ _ _ _ => w | _ => 0 end.

(** The widths of the outlined rectangles (the chips) among [ops], in
    lowest terms. *)
Definition chip_widths (ops : list draw_op) : list Q :=
  map (fun op => Qred (rect_width op))
      (filter (fun op => match op with Rect _ _ _ _ PaintDF _ _ => true | _ => false end) ops).

(** The width a chip needs for [t]: the text as it is rendered, in
    Helvetica 9, plus the padding of 12; in lowest terms. *)
Definition fitted_width (cw : font_family -> font_style -> ascii -> Z) (t : string) : Q :=
  Qred (string_width cw (Font Helvetica Regular 9) t + 12).

(** Extents of boxes laid out from [x] on, each followed by a gap of 5. *)
Fixpoint chain (x : Q) (widths : list Q) : list (Q * Q) :=
  match widths with
  | [] => []
  | w :: ws => (x, x + w) :: chain (x + (w + 5)) ws
  end.

(** The widths of the chips of a row whose first chip is measured in [f]
    and whose later chips are measured in the font the previous chip left
    behind, Helvetica 9. *)
Definition row_widths (cw : font_family -> font_style -> ascii -> Z)
           (f : font) (texts : list string) : list Q :=
  match texts with
  | [] => []
  | t :: ts =>
      (string_width cw f t + 12)
        :: map (fun t' => string_width cw (Font Helvetica Regular 9) t' + 12) ts
  end.

(** The background of a page: position, size and colour of a filled
    rectangle drawn first. *)
Definition background (ops : list draw_op) : option (Q * Q * Q * Q * color) :=
  match ops with
  | Rect x y w h PaintF _ fill :: _ => Some (x, y, w, h, fill)
  | _ => None
  end.

(** ** Canvases met while the script runs *)

(** A new [SlidePDF] after its first [add_slide()]. *)
Definition fresh_slide : FPDF :=
  state_of (add_slide default_bg SlidePDF_new) SlidePDF_new.

(** The second slide once its heading is drawn. *)
Definition heading_drawn : FPDF :=
  state_of (heading "The Problem" 20 fresh_slide) fresh_slide.

(** The first slide at the moment its row of chips begins: the subtitle has
    just been drawn. *)
Definition before_first_chip : FPDF :=
  state_of ((add_slide default_bg ;;
             set_font Helvetica Regular 11 ;;
             set_text_color 254 202 87 ;;
             set_xy 20 40 ;;
             cell 257 10 "UNISWAP V4 HOOK" AlignC false ;;
             title_text "Sentiment Fee Hook" 55 44 ;;
             subtitle_text "Dynamic fees that adapt to market psychology" 100 18)
              SlidePDF_new) SlidePDF_new.

(** A slide on which the caller has selected a 5 pt font. *)
Definition small_print : FPDF :=
  state_of (set_font Helvetica Regular 5 fresh_slide) fresh_slide.

(** A computation that leaves the page-break mode of the canvas as it
    found it. *)
Definition keeps_break_mode {A} (m : M A) : Prop :=
  forall s a s', m s = Ok (a, s') -> auto_page_break s' = auto_page_break s.

(** The canvas after [set_xy(x, y)]. *)
Definition moved (x y : Q) (s : FPDF) : FPDF := state_of (set_xy x y s) s.

(** ** What a method may do to the canvas *)

(** Every successful run of [m] relates the canvas before to the canvas
    after by [R]. *)
Definition respects {A} (R : FPDF -> FPDF -> Prop) (m : M A) : Prop :=
  forall s a s', m s = Ok (a, s') -> R s s'.

Definition same_geometry (s s' : FPDF) : Prop :=
  page_w s' = page_w s /\ page_h s' = page_h s /\
  l_margin s' = l_margin s /\ t_margin s' = t_margin s /\
  r_margin s' = r_margin s /\ b_margin s' = b_margin s.

(** The canvas [s'] continues [s]: same page geometry, the page counter not
    lower, and the content of [s] followed by new operations that lie on the
    pages from the current page of [s] to the current page of [s'], in page
    order. *)
Definition grows (s s' : FPDF) : Prop :=
  same_geometry s s' /\
  (page s <= page s')%nat /\
  exists l,
    log s' = (log s ++ l)%list /\
    Forall (fun e => page s <= fst e <= page s')%nat l /\
    StronglySorted le (map fst l).

(** With automatic page breaks off they stay off, the page counter stands
    still, and the content of [s'] is the content of [s] followed by
    operations that are all on the page current in [s]. *)
Definition stays_on_page (s s' : FPDF) : Prop :=
  auto_page_break s = false ->
  auto_page_break s' = false /\
  page s' = page s /\
  exists l,
    log s' = (log s ++ l)%list /\
    Forall (fun e => fst e = page s) l.

(** [m] returns normally on every canvas. *)
Definition never_raises {A} (m : M A) : Prop :=
  forall s, exists a s', m s = Ok (a, s').

(** [m] never fails for want of a selected font. *)
Definition never_lacks_font {A} (m : M A) : Prop :=
  forall s, m s <> Raise NoFontSet.

(** What the item loop of [box] draws from ordinate [y] on: for each item a
    dot at [mx] and a cell at [tx], the next item 6 + 1 lower. *)
Fixpoint item_ops (draw : color) (mx tx w : Q) (y : Q) (items : list string) : list draw_op :=
  match items with
  | [] => []
  | item :: rest =>
      Ellipse mx (y + 2) 3 3 PaintF draw (255, 107, 107)%Z
        :: Cell tx y w 6 item AlignL (Font Helvetica Regular 11) (200, 200, 200)%Z
        :: item_ops draw mx tx w (y + 6 + 1) rest
  end.

(** The vertical extent [y, y + h] of an operation. *)
Definition v_extent (op : draw_op) : Q * Q :=
  match op with
  | Rect _ y _ h _ _ _ => (y, y + h)
  | Ellipse _ y _ h _ _ _ => (y, y + h)
  | Cell _ y _ h _ _ _ _ => (y, y + h)
  | MultiCell _ y _ h _ _ _ => (y, y + h)
  end.

(** The box of [inner] lies within the box of [outer]. *)
Definition inside (inner outer : draw_op) : Prop :=
  fst (h_extent outer) <= fst (h_extent inner) /\
  snd (h_extent inner) <= snd (h_extent outer) /\
  fst (v_extent outer) <= fst (v_extent inner) /\
  snd (v_extent inner) <= snd (v_extent outer).

(** The abscissa of the vertical axis of an operation. *)
Definition h_middle (op : draw_op) : Q :=
  (fst (h_extent op) + snd (h_extent op)) / 2.

(** What one column of slide 5 draws from ordinate [y] on: for each item a
    dot at [x] and a cell 100 wide at [tx], the items 22 apart. *)
Fixpoint column_ops (draw : color) (x tx : Q) (y : Q) (items : list string) : list draw_op :=
  match items with
  | [] => []
  | item :: rest =>
      Ellipse x (y + 3) 4 4 PaintF draw (255, 107, 107)%Z
        :: Cell tx y 100 8 item AlignL (Font Helvetica Regular 13) (220, 220, 220)%Z
        :: column_ops draw x tx (y + 22) rest
  end.

(** The ordinate below [n] rows that start at [y]. *)
Fixpoint after_rows (y : Q) (n : nat) : Q :=
  match n with
  | O => y
  | S n' => after_rows (y + 22) n'
  end.

(** Every operation drawn so far is on a page that has been started. *)
Definition on_started_pages (s : FPDF) : Prop :=
  Forall (fun e => fst e <= page s)%nat (log s).

(** * Properties *)

(** ** [str.split] and [str.count] *)

Lemma startswith_app (p s : string) :
  PyStr.startswith p s = true -> s = p ++ PyStr.drop (String.length p) s.
Proof.
  revert s; induction p as [|a p IH]; intros s H.
  - reflexivity.
  - destruct s as [|b s]; simpl in H; [discriminate|].
    apply andb_true_iff in H as [Hab Hps].
    apply Ascii.eqb_eq in Hab; subst b.
    simpl. f_equal. now apply IH.
Qed.

Lemma startswith_length (p s : string) :
  PyStr.startswith p s = true -> (String.length p <= String.length s)%nat.
Proof.
  revert s; induction p as [|a p IH]; intros s H; simpl.
  - lia.
  - destruct s as [|b s]; simpl in H; [discriminate|].
    apply andb_true_iff in H as [_ Hps]. apply IH in Hps. simpl. lia.
Qed.

Lemma drop_length (n : nat) (s : string) :
  String.length (PyStr.drop n s) = (String.length s - n)%nat.
Proof.
  revert s; induction n as [|n IH]; intros [|c s]; simpl; auto.
Qed.

Lemma find_bound (sep s : string) (i : nat) :
  PyStr.find sep s = Some i -> (i + String.length sep <= String.length s)%nat.
Proof.
  revert i; induction s as [|c s IH]; intros i H; simpl in H.
  - destruct (PyStr.startswith sep "") eqn:E; [|discriminate].
    injection H as <-. apply startswith_length in E. simpl in *. lia.
  - destruct (PyStr.startswith sep (String c s)) eqn:E.
    + injection H as <-. apply startswith_length in E. simpl in *. lia.
    + destruct (PyStr.find sep s) as [j|]; [|discriminate].
      injection H as <-. specialize (IH j eq_refl). simpl. lia.
Qed.

Lemma find_split (sep s : string) (i : nat) :
  PyStr.find sep s = Some i ->
  s = PyStr.take i s ++ sep ++ PyStr.drop (i + String.length sep) s.
Proof.
  revert i; induction s as [|c s IH]; intros i H; simpl in H.
  - destruct (PyStr.startswith sep "") eqn:E; [|discriminate].
    injection H as <-. now apply startswith_app.
  - destruct (PyStr.startswith sep (String c s)) eqn:E.
    + injection H as <-. now apply startswith_app.
    + destruct (PyStr.find sep s) as [j|]; [|discriminate].
      injection H as <-. simpl. f_equal. now apply IH.
Qed.

Lemma count_scan_skip (k : nat) (sub s : string) :
  PyStr.count_scan k sub s = PyStr.count_scan 0 sub (PyStr.drop k s).
Proof.
  revert k; induction s as [|c s IH]; intros [|k]; simpl; auto.
Qed.

Lemma count_find_none (sep s : string) :
  PyStr.find sep s = None -> PyStr.count s sep = 0%nat.
Proof.
  unfold PyStr.count. induction s as [|c s IH]; intros H; simpl in *; auto.
  destruct (PyStr.startswith sep (String c s)); [discriminate|].
  destruct (PyStr.find sep s); [discriminate|]. now apply IH.
Qed.

Lemma count_find_some (sep s : string) (i : nat) :
  sep <> "" ->
  PyStr.find sep s = Some i ->
  PyStr.count s sep = S (PyStr.count (PyStr.drop (i + String.length sep) s) sep).
Proof.
  intros Hsep. unfold PyStr.count.
  revert i; induction s as [|c s IH]; intros i H.
  - simpl in H. destruct sep; [congruence|discriminate].
  - cbn [PyStr.find] in H. cbn [PyStr.count_scan].
    destruct (PyStr.startswith sep (String c s)) eqn:E.
    + injection H as <-. rewrite count_scan_skip.
      destruct sep as [|a sep]; [congruence|].
      simpl. now rewrite Nat.sub_0_r.
    + destruct (PyStr.find sep s) as [j|]; [|discriminate].
      injection H as <-. now rewrite (IH j eq_refl).
Qed.

Lemma split_loop_length (fuel : nat) (sep s : string) :
  sep <> "" ->
  (String.length s < fuel)%nat ->
  List.length (PyStr.split_loop fuel sep s) = S (PyStr.count s sep).
Proof.
  intros Hsep. revert s; induction fuel as [|fuel IH]; intros s Hlen; [lia|].
  simpl. destruct (PyStr.find sep s) as [i|] eqn:E.
  - simpl. rewrite (count_find_some _ _ _ Hsep E). f_equal.
    apply IH. rewrite drop_length. apply find_bound in E.
    destruct sep; [congruence|]. simpl in *. lia.
  - now rewrite (count_find_none _ _ E).
Qed.

Lemma split_loop_single (fuel : nat) (sep s : string) :
  List.length (PyStr.split_loop fuel sep s) = 1%nat ->
  PyStr.split_loop fuel sep s = [s].
Proof.
  destruct fuel as [|fuel]; simpl; auto.
  destruct (PyStr.find sep s) as [i|]; auto.
  simpl. intros H. exfalso.
  destruct fuel as [|fuel]; simpl in H; [discriminate|].
  destruct (PyStr.find sep _); discriminate.
Qed.

(** A text in which the separator is met exactly once splits in two, and the
    two parts are what stands before and after that occurrence. *)
Lemma split_once (s sep : string) :
  sep <> "" ->
  PyStr.count s sep = 1%nat ->
  exists p q, PyStr.split s sep = Some [p; q] /\ s = p ++ sep ++ q.
Proof.
  intros Hsep Hc.
  assert (Hl := split_loop_length (S (String.length s)) sep s Hsep (Nat.lt_succ_diag_r _)).
  unfold PyStr.split. destruct sep as [|a sep]; [congruence|].
  set (sp := String a sep) in *.
  cbn [PyStr.split_loop] in *.
  destruct (PyStr.find sp s) as [i|] eqn:E.
  - pose proof (find_split _ _ _ E) as Hs.
    rewrite Hc in Hl. cbn [List.length] in Hl. injection Hl as Hl.
    apply split_loop_single in Hl.
    change (S (String.length sep)) with (String.length sp) in Hl. rewrite Hl.
    exists (PyStr.take i s), (PyStr.drop (i + String.length sp) s).
    split; [reflexivity|exact Hs].
  - rewrite (count_find_none _ _ E) in Hc. discriminate.
Qed.

(** Otherwise the number of parts is not two. *)
Lemma split_not_once (s sep : string) :
  sep <> "" ->
  PyStr.count s sep <> 1%nat ->
  exists parts, PyStr.split s sep = Some parts /\ List.length parts <> 2%nat.
Proof.
  intros Hsep Hc.
  assert (Hl := split_loop_length (S (String.length s)) sep s Hsep (Nat.lt_succ_diag_r _)).
  unfold PyStr.split. destruct sep as [|a sep]; [congruence|].
  eexists; split; [reflexivity|]. rewrite Hl. lia.
Qed.

Example split_highlight :
  PyStr.split "Bounded fees: Always" "fees" = Some ["Bounded "; ": Always"].
Proof. reflexivity. Qed.

Example split_absent : PyStr.split "Bounded fees" "xyz" = Some ["Bounded fees"].
Proof. reflexivity. Qed.

Example split_twice : PyStr.split "a-b-c" "-" = Some ["a"; "b"; "c"].
Proof. reflexivity. Qed.

Example split_at_both_ends : PyStr.split "-a-" "-" = Some [""; "a"; ""].
Proof. reflexivity. Qed.

Example split_empty_separator : PyStr.split "abc" "" = None.
Proof. reflexivity. Qed.

Example str_of_ten : PyStr.str 10 = "10".
Proof. reflexivity. Qed.

(** *** What [count] counts *)

Lemma drop_drop (n m : nat) (s : string) :
  PyStr.drop m (PyStr.drop n s) = PyStr.drop (n + m) s.
Proof.
  revert s; induction n as [|n IH]; intros s; [reflexivity|].
  destruct s as [|c s]; cbn [PyStr.drop Nat.add]; [now destruct m|apply IH].
Qed.

Lemma find_some_occurs (sep s : string) (i : nat) :
  PyStr.find sep s = Some i -> PyStr.occurs_at sep s i.
Proof.
  intros H. split; [now apply find_bound|].
  revert i H; induction s as [|c s IH]; intros i H; simpl in H.
  - destruct (PyStr.startswith sep "") eqn:E; [|discriminate]. now injection H as <-.
  - destruct (PyStr.startswith sep (String c s)) eqn:E.
    + now injection H as <-.
    + destruct (PyStr.find sep s) as [j|]; [|discriminate].
      injection H as <-. now apply IH.
Qed.

Lemma find_none_no_occurrence (sep s : string) :
  PyStr.find sep s = None -> forall i, ~ PyStr.occurs_at sep s i.
Proof.
  induction s as [|c s IH]; intros H i [_ O]; simpl in H.
  - destruct (PyStr.startswith sep "") eqn:E; [discriminate|].
    destruct i; simpl in O; congruence.
  - destruct (PyStr.startswith sep (String c s)) eqn:E; [discriminate|].
    destruct (PyStr.find sep s) eqn:F; [discriminate|].
    destruct i as [|i]; simpl in O; [congruence|].
    apply (IH eq_refl i). split; [|exact O].
    apply startswith_length in O. rewrite drop_length in O.
    destruct sep; [simpl in E; discriminate|]. cbn [String.length] in *. lia.
Qed.

(** [find] returns the least index of an occurrence. *)
Lemma find_least (sep s : string) (i j : nat) :
  PyStr.find sep s = Some i -> PyStr.occurs_at sep s j -> (i <= j)%nat.
Proof.
  revert i j; induction s as [|c s IH]; intros i j H [B O]; simpl in H.
  - destruct (PyStr.startswith sep "") eqn:E; [|discriminate]. injection H as <-. lia.
  - destruct (PyStr.startswith sep (String c s)) eqn:E.
    + injection H as <-. lia.
    + destruct (PyStr.find sep s) as [k|] eqn:F; [|discriminate].
      injection H as <-.
      destruct j as [|j]; simpl in O; [congruence|].
      apply le_n_S. apply (IH k j eq_refl). split; [simpl in B; lia|exact O].
Qed.

(** No occurrence at any index: the count is zero, and conversely. *)
Lemma count_zero_iff (s sep : string) :
  sep <> "" ->
  PyStr.count s sep = 0%nat <-> forall i, ~ PyStr.occurs_at sep s i.
Proof.
  intros Hsep. split.
  - intros Hc. destruct (PyStr.find sep s) as [i|] eqn:F.
    + rewrite (count_find_some _ _ _ Hsep F) in Hc. discriminate.
    + now apply find_none_no_occurrence.
  - intros Hno. destruct (PyStr.find sep s) as [i|] eqn:F.
    + exfalso. apply (Hno i). now apply find_some_occurs.
    + now apply count_find_none.
Qed.

(** An occurrence at a single index: the count is one. *)
Lemma count_one_of_unique (s sep : string) (i : nat) :
  sep <> "" ->
  PyStr.occurs_at sep s i ->
  (forall j, PyStr.occurs_at sep s j -> j = i) ->
  PyStr.count s sep = 1%nat.
Proof.
  intros Hsep Hi Huniq.
  destruct (PyStr.find sep s) as [k|] eqn:F.
  - rewrite (count_find_some _ _ _ Hsep F). f_equal.
    apply count_zero_iff; [exact Hsep|]. intros j [B O].
    rewrite drop_drop in O. rewrite drop_length in B.
    pose proof (find_bound _ _ _ F) as Bk.
    assert (Hk : k = i) by (apply Huniq; now apply find_some_occurs).
    assert (Hj : (k + String.length sep + j)%nat = i).
    { apply Huniq. split; [lia|exact O]. }
    destruct sep; [congruence|]. simpl in Hj. lia.
  - exfalso. exact (find_none_no_occurrence _ _ F i Hi).
Qed.

(** Occurrences that overlap are met once by the scan: ['aa'] occurs in
    ['aaa'] at 0 and at 1, its count is 1, and the split has two parts. *)
Example overlapping_occurrences :
  PyStr.occurs_at "aa" "aaa" 0 /\ PyStr.occurs_at "aa" "aaa" 1 /\
  PyStr.count "aaa" "aa" = 1%nat /\
  PyStr.split "aaa" "aa" = Some [""; "a"].
Proof.
  repeat split; simpl; lia.
Qed.

(** ** Running a method on an arbitrary canvas *)

Lemma from_edge_nonneg (extent v : Q) : 0 <= v -> from_edge extent v = v.
Proof.
  intros H. unfold from_edge. apply Qle_bool_iff in H. now rewrite H.
Qed.

Lemma cell_width_nonzero (avail w : Q) : ~ w == 0 -> cell_width avail w = w.
Proof.
  intros H. unfold cell_width. destruct (Qeq_bool w 0) eqn:E; auto.
  apply Qeq_bool_iff in E. contradiction.
Qed.

Lemma canvas_of_log (s s' : FPDF) (l : list (nat * draw_op)) :
  log s' = (log s ++ l)%list ->
  canvas s' = (canvas s ++ map snd l)%list.
Proof.
  intros E. unfold canvas. now rewrite E, map_app.
Qed.

(** A method body is evaluated on a canvas opened into its fields;
    coordinate arithmetic, text measurement and the tests for an automatic
    page break are left as they stand. *)
Ltac eval_body :=
  lazy -[from_edge cell_width Qplus Qminus Qmult app string_width
         PyStr.split Qlt_bool canvas].
Ltac run := eval_body.
(** The hypothesis that automatic page breaks are off settles those tests. *)
Ltac breaks_off H := cbn in H; subst; repeat split; reflexivity.
Ltac log_eq := rewrite <- ?app_assoc; reflexivity.
Ltac canvas_by_log :=
  match goal with
  | |- canvas _ = (canvas ?s0 ++ _)%list =>
      eapply eq_trans; [apply (canvas_of_log s0); eval_body; log_eq|reflexivity]
  end.
Ltac open_canvas s := destruct s.

(** ** Automatic page breaks stay off

    [SlidePDF.__init__] switches automatic page breaks off and no method of
    the class touches the switch again, so every canvas a [SlidePDF] ever
    has satisfies [auto_page_break s = false]. *)

Create HintDb break_mode.

Lemma keeps_ret {A} (a : A) : keeps_break_mode (ret a).
Proof.
  intros s a' s' E. now injection E as <- <-.
Qed.

Lemma keeps_bind {A B} (m : M A) (k : A -> M B) :
  keeps_break_mode m -> (forall a, keeps_break_mode (k a)) -> keeps_break_mode (bind m k).
Proof.
  intros Hm Hk s b s' E. unfold bind in E.
  destruct (m s) as [[a s1]|e] eqn:E1; [|discriminate].
  rewrite (Hk a _ _ _ E). now apply (Hm _ _ _ E1).
Qed.

Lemma keeps_modify (f : FPDF -> FPDF) :
  (forall s, auto_page_break (f s) = auto_page_break s) -> keeps_break_mode (modify f).
Proof.
  intros Hf s a s' E. injection E as _ <-. apply Hf.
Qed.

Lemma keeps_gets {A} (f : FPDF -> A) : keeps_break_mode (gets f).
Proof.
  intros s a s' E. now injection E as _ <-.
Qed.

Lemma keeps_raise {A} (e : exn) : keeps_break_mode (@raise A e).
Proof.
  intros s a s' E. discriminate E.
Qed.

Lemma keeps_cell (w h : Q) (txt : string) (al : align) (ln : bool) :
  keeps_break_mode (cell w h txt al ln).
Proof.
  intros s a s' E. unfold cell in E.
  destruct (current_font s); [|discriminate].
  injection E as _ <-. now destruct ln.
Qed.

Lemma keeps_multi_cell (line_count : font -> Q -> string -> nat) (w h : Q) (txt : string) :
  keeps_break_mode (multi_cell line_count w h txt).
Proof.
  intros s a s' E. unfold multi_cell in E.
  destruct (current_font s); [|discriminate].
  now injection E as _ <-.
Qed.

Lemma keeps_get_string_width (cw : font_family -> font_style -> ascii -> Z) (txt : string) :
  keeps_break_mode (get_string_width cw txt).
Proof.
  intros s a s' E. unfold get_string_width in E.
  destruct (current_font s); [|discriminate].
  now injection E as _ <-.
Qed.

Lemma keeps_for_each {A} (l : list A) (body : A -> M unit) :
  (forall v, keeps_break_mode (body v)) -> keeps_break_mode (for_each l body).
Proof.
  intros Hb. induction l as [|v l IH]; cbn [for_each].
  - apply keeps_ret.
  - apply keeps_bind; [apply Hb|intros _; exact IH].
Qed.

Lemma keeps_for_acc {A B} (l : list A) (body : A -> B -> M B) :
  (forall v acc, keeps_break_mode (body v acc)) ->
  forall acc, keeps_break_mode (for_acc l acc body).
Proof.
  intros Hb. induction l as [|v l IH]; intros acc; cbn [for_acc].
  - apply keeps_ret.
  - apply keeps_bind; [apply Hb|intros acc'; apply IH].
Qed.

#[local] Hint Resolve keeps_ret keeps_gets keeps_raise keeps_cell keeps_multi_cell
  keeps_get_string_width : break_mode.

(** A method body is a chain of binds over the primitives. *)
Ltac keeps :=
  repeat first
    [ apply keeps_bind; [|intros ?]
    | apply keeps_for_each; intros ?
    | apply keeps_for_acc; intros ? ?
    | apply keeps_modify; intros ?; reflexivity
    | solve [auto with break_mode]
    | match goal with
      | |- keeps_break_mode (match ?d with _ => _ end) => destruct d
      | |- keeps_break_mode (if ?d then _ else _) => destruct d
      | |- keeps_break_mode (let '(_, _) := ?d in _) => destruct d
      end ].

Ltac keeps_method :=
  unfold add_slide, slide_number, title_text, subtitle_text, heading, body_text,
         bullet, box, fee_row, stat_box, tag, code_box, tag_run, split,
         add_page, set_fill_color, set_draw_color, set_text_color, set_font,
         set_xy, set_x, set_y, get_y, rect, ellipse, out;
  keeps.

(** X12.  Every method of [SlidePDF] leaves the page-break mode alone,
    whichever way it is set. *)
Lemma methods_keep_break_mode
      (cw : font_family -> font_style -> ascii -> Z)
      (line_count : font -> Q -> string -> nat) :
  (forall bg, keeps_break_mode (add_slide bg)) /\
  (forall num, keeps_break_mode (slide_number num)) /\
  (forall text y size, keeps_break_mode (title_text text y size)) /\
  (forall text y size, keeps_break_mode (subtitle_text text y size)) /\
  (forall text y, keeps_break_mode (heading text y)) /\
  (forall text x y size, keeps_break_mode (body_text line_count text x y size)) /\
  (forall text x y highlight, keeps_break_mode (bullet cw text x y highlight)) /\
  (forall x y w h title items, keeps_break_mode (box x y w h title items)) /\
  (forall label fee c y, keeps_break_mode (fee_row label fee c y)) /\
  (forall x y number label, keeps_break_mode (stat_box x y number label)) /\
  (forall text x y, keeps_break_mode (tag cw text x y)) /\
  (forall text y, keeps_break_mode (code_box text y)).
Proof.
  repeat split; intros; keeps_method.
Qed.

Lemma new_slide_pdf_breaks_off : auto_page_break SlidePDF_new = false.
Proof. reflexivity. Qed.

(** ** The statistic tile *)

(** C5.  For every call [stat_box] raises nothing and draws, in this order,
    a filled 70x50 rectangle at the given position and two centred cells 70
    wide, the number in bold 28 pt and the caption in regular 11 pt; with
    automatic page breaks off (as [SlidePDF.__init__] leaves them) the cells
    start 8 and 30 below the top edge of the rectangle.  In particular
    [stat_box(40, 55, '50', 'Test Cases')] then draws the rectangle at
    (40, 55), '50' in a cell at (40, 63) and 'Test Cases' in a cell at
    (40, 85). *)
Theorem stat_box_tile (s : FPDF) :
  (forall (x y : Q) (number label : string),
      exists s' y1 y2,
        stat_box x y number label s = Ok (tt, s') /\
        canvas s' =
          (canvas s ++
           [Rect x y 70 50 PaintF (draw_color s) (40, 40, 60)%Z;
            Cell (from_edge (page_w s) x) y1 70 15
                 number AlignC (Font Helvetica Bold 28) (255, 107, 107)%Z;
            Cell (from_edge (page_w s) x) y2 70 10
                 label AlignC (Font Helvetica Regular 11) (150, 150, 150)%Z])%list /\
        (auto_page_break s = false ->
         y1 = from_edge (page_h s) (y + 8) /\ y2 = from_edge (page_h s) (y + 30)))
  /\
  (auto_page_break s = false ->
   exists s',
     stat_box 40 55 "50" "Test Cases" s = Ok (tt, s') /\
     canvas s' =
       (canvas s ++
        [Rect 40 55 70 50 PaintF (draw_color s) (40, 40, 60)%Z;
         Cell 40 63 70 15 "50" AlignC (Font Helvetica Bold 28) (255, 107, 107)%Z;
         Cell 40 85 70 10 "Test Cases" AlignC (Font Helvetica Regular 11)
              (150, 150, 150)%Z])%list).
Proof.
  split.
  - intros x y number label. open_canvas s. run. do 3 eexists.
    split; [reflexivity|]. split; [canvas_by_log|].
    intros H. breaks_off H.
  - intros H. open_canvas s. cbn in H. subst.
    eexists. split; [run; reflexivity|]. canvas_by_log.
Qed.

(** The tile on the canvas of a new [SlidePDF] after its first
    [add_slide]. *)
Lemma stat_box_tile_witness :
  auto_page_break fresh_slide = false /\
  exists s',
    stat_box 40 55 "50" "Test Cases" fresh_slide = Ok (tt, s') /\
    canvas s' =
      [Rect 0 0 297 210 PaintF (0, 0, 0)%Z (26, 26, 46)%Z;
       Rect 40 55 70 50 PaintF (0, 0, 0)%Z (40, 40, 60)%Z;
       Cell 40 63 70 15 "50" AlignC (Font Helvetica Bold 28) (255, 107, 107)%Z;
       Cell 40 85 70 10 "Test Cases" AlignC (Font Helvetica Regular 11) (150, 150, 150)%Z].
Proof.
  split; [reflexivity|].
  exact (proj2 (stat_box_tile fresh_slide) eq_refl).
Defined.

(** ** The labelled box *)

(** C6.  With an empty item list [box] raises nothing on any canvas and
    draws exactly the frame (a filled and outlined rectangle) and the title
    cell: no bullet marker and no item text.  With automatic page breaks off
    the title cell starts 5 below the top edge of the frame. *)
Theorem box_without_items (s : FPDF) (x y w h : Q) (title : string) :
  exists s' ty,
    box x y w h title [] s = Ok (tt, s') /\
    canvas s' =
      (canvas s ++
       [Rect x y w h PaintDF (80, 80, 100)%Z (40, 40, 60)%Z;
        Cell (from_edge (page_w s) (x + 5)) ty
             (cell_width (page_w s - r_margin s - from_edge (page_w s) (x + 5)) (w - 10))
             8 title AlignL (Font Helvetica Bold 14) (72, 219, 251)%Z])%list /\
    (auto_page_break s = false -> ty = from_edge (page_h s) (y + 5)).
Proof.
  open_canvas s. run. do 2 eexists.
  split; [reflexivity|]. split; [canvas_by_log|].
  intros H. breaks_off H.
Qed.

Lemma box_without_items_witness :
  auto_page_break fresh_slide = false /\
  exists s' ty,
    box 20 70 125 70 "Bull Markets (Greed)" [] fresh_slide = Ok (tt, s') /\
    canvas s' =
      [Rect 0 0 297 210 PaintF (0, 0, 0)%Z (26, 26, 46)%Z;
       Rect 20 70 125 70 PaintDF (80, 80, 100)%Z (40, 40, 60)%Z;
       Cell 25 ty 115 8 "Bull Markets (Greed)" AlignL (Font Helvetica Bold 14)
            (72, 219, 251)%Z] /\
    ty = 75.
Proof.
  split; [reflexivity|].
  destruct (box_without_items fresh_slide 20 70 125 70 "Bull Markets (Greed)")
    as (s' & ty & E & C & Y).
  exists s', ty. split; [exact E|]. split; [exact C|]. exact (Y eq_refl).
Defined.

(** ** The page number *)

(** C7, as stated, fails: on the second slide, once the heading is drawn,
    [slide_number(2)] moves the cursor from (277, 20) to (290, 195), replaces
    the bold 28 pt font by regular 10 pt and the accent text colour by grey. *)
Lemma slide_number_overwrites_cursor_and_style :
  exists s',
    slide_number 2 heading_drawn = Ok (tt, s') /\
    (cur_x heading_drawn, cur_y heading_drawn) = (277, 20) /\
    (cur_x s', cur_y s') = (290, 195) /\
    ~ cur_x s' == cur_x heading_drawn /\
    ~ cur_y s' == cur_y heading_drawn /\
    current_font heading_drawn = Some (Font Helvetica Bold 28) /\
    current_font s' = Some (Font Helvetica Regular 10) /\
    text_color heading_drawn = (255, 107, 107)%Z /\
    text_color s' = (150, 150, 150)%Z.
Proof.
  eexists. split; [vm_compute; reflexivity|].
  repeat split; try reflexivity; vm_compute; discriminate.
Qed.

(** C7, amended.  [slide_number] raises nothing and adds exactly one drawing
    operation, the right-aligned 10x10 cell at abscissa 280 that holds the
    number in grey regular 10 pt; what was drawn before, the page geometry
    and the fill and draw colours are untouched, while the current font and
    text colour become those of the label and the cursor abscissa 290.  With
    automatic page breaks off the cell is at (280, 195) on the current page,
    the page count is unchanged and the cursor is left at (290, 195). *)
Theorem slide_number_effect (s : FPDF) (num : Z) :
  exists s' pg ly,
    slide_number num s = Ok (tt, s') /\
    log s' = (log s ++ [(pg, Cell 280 ly 10 10 (PyStr.str num) AlignR
                                  (Font Helvetica Regular 10) (150, 150, 150)%Z)])%list /\
    (page_w s', page_h s') = (page_w s, page_h s) /\
    (l_margin s', t_margin s', r_margin s', b_margin s') =
      (l_margin s, t_margin s, r_margin s, b_margin s) /\
    auto_page_break s' = auto_page_break s /\
    fill_color s' = fill_color s /\
    draw_color s' = draw_color s /\
    current_font s' = Some (Font Helvetica Regular 10) /\
    text_color s' = (150, 150, 150)%Z /\
    cur_x s' = 290 /\
    (auto_page_break s = false ->
     pg = page s /\ ly = 195 /\ page s' = page s /\ cur_y s' = 195).
Proof.
  open_canvas s. run. do 3 eexists.
  split; [reflexivity|]. cbn.
  do 9 (split; [reflexivity|]).
  intros H. breaks_off H.
Qed.

Lemma slide_number_effect_witness :
  auto_page_break heading_drawn = false /\
  exists s',
    slide_number 2 heading_drawn = Ok (tt, s') /\
    page_ops 1 s' =
      [Rect 0 0 297 210 PaintF (0, 0, 0)%Z (26, 26, 46)%Z;
       Cell 20 20 257 15 "The Problem" AlignL (Font Helvetica Bold 28) (255, 107, 107)%Z;
       Cell 280 195 10 10 "2" AlignR (Font Helvetica Regular 10) (150, 150, 150)%Z].
Proof.
  split; [reflexivity|].
  destruct (slide_number_effect heading_drawn 2)
    as (s' & pg & ly & E & L & _ & _ & _ & _ & _ & _ & _ & _ & B).
  destruct (B eq_refl) as (-> & -> & _ & _).
  exists s'. split; [exact E|].
  unfold page_ops. rewrite L. reflexivity.
Defined.

(** ** The bulleted item *)

Lemma truthy_nonempty (hl : string) : hl <> "" -> PyStr.truthy (Some hl) = true.
Proof.
  destruct hl; [congruence|reflexivity].
Qed.

(** Whenever the split does not give two parts, the highlight is dropped. *)
Lemma bullet_same_as_plain (cw : font_family -> font_style -> ascii -> Z)
      (text : string) (x : Q) (y : option Q) (hl : string) (parts : list string) (s : FPDF) :
  PyStr.split text hl = Some parts ->
  List.length parts <> 2%nat ->
  bullet cw text x y (Some hl) s = bullet cw text x y None s.
Proof.
  intros E L. unfold bullet, split. rewrite E.
  destruct (PyStr.truthy (Some hl)); [|reflexivity].
  destruct parts as [|a [|b [|c r]]]; try reflexivity.
  now contradiction L.
Qed.

(** The plain rendering raises nothing, on any canvas. *)
Lemma bullet_plain_ok (cw : font_family -> font_style -> ascii -> Z)
      (text : string) (x : Q) (y : option Q) (s : FPDF) :
  exists s', bullet cw text x y None s = Ok (tt, s').
Proof.
  unfold bullet.
  destruct y as [v|]; [destruct (truthy_num (Some v))|];
    open_canvas s; run; eexists; reflexivity.
Qed.

(** C2, as stated, fails when occurrences overlap: ['ana'] occurs in
    ['banana'] at index 1 and at index 3, more than once, yet the call is not
    the plain call: the scan of [str.split] meets one occurrence only and
    three cells are drawn, ['b'], ['ana'] in bold, ['na']. *)
Lemma highlight_of_overlapping_occurrences :
  PyStr.occurs_at "ana" "banana" 1 /\
  PyStr.occurs_at "ana" "banana" 3 /\
  (exists s',
     bullet core_cw "banana" 25 None (Some "ana") fresh_slide = Ok (tt, s') /\
     map (fun op => (cell_text op, is_bold_cell op)) (skipn 2 (canvas s')) =
       [(Some "b", false); (Some "ana", true); (Some "na", false)]) /\
  (exists s',
     bullet core_cw "banana" 25 None None fresh_slide = Ok (tt, s') /\
     map (fun op => (cell_text op, is_bold_cell op)) (skipn 2 (canvas s')) =
       [(Some "banana", false)]) /\
  bullet core_cw "banana" 25 None (Some "ana") fresh_slide <>
    bullet core_cw "banana" 25 None None fresh_slide.
Proof.
  split; [split; [cbn; lia|reflexivity]|].
  split; [split; [cbn; lia|reflexivity]|].
  split; [eexists; split; vm_compute; reflexivity|].
  split; [eexists; split; vm_compute; reflexivity|].
  intros E.
  apply (f_equal (fun r => List.length (canvas (state_of r SlidePDF_new)))) in E.
  vm_compute in E. discriminate E.
Qed.

(** C2, amended.  Occurrences are counted as [str.count] counts them: those
    met by a left-to-right scan that resumes after each occurrence found.
    With a non-empty highlight counted exactly once, which is the case
    whenever it occurs at exactly one index, the text is cut as
    [p ++ hl ++ q] and, after the marker, three cells are drawn, each
    beginning where the one before ends: [p] in regular grey, [hl] in bold
    accent yellow, [q] in regular grey; with automatic page breaks off they
    stand on one line.  When the count is anything else, zero whenever the
    highlight occurs at no index, the call is the plain call, state for
    state.  In no case is anything raised. *)
Theorem bullet_highlight (cw : font_family -> font_style -> ascii -> Z)
        (text : string) (x : Q) (y : option Q) (hl : string) (s : FPDF) :
  hl <> "" ->
  (PyStr.count text hl = 1%nat ->
   exists p q s' ey x0 y0 y1 y2 a0 a1 a2,
     text = p ++ hl ++ q /\
     bullet cw text x y (Some hl) s = Ok (tt, s') /\
     let normal := Font Helvetica Regular 13 in
     let bold := Font Helvetica Bold 13 in
     let w0 := cell_width a0 (string_width cw normal p) in
     let w1 := cell_width a1 (string_width cw bold hl) in
     canvas s' =
       (canvas s ++
        [Ellipse x ey 4 4 PaintF (draw_color s) (255, 107, 107)%Z;
         Cell x0 y0 w0 8 p AlignL normal (220, 220, 220)%Z;
         Cell (x0 + w0) y1 w1 8 hl AlignL bold (254, 202, 87)%Z;
         Cell (x0 + w0 + w1) y2 a2 8 q AlignL normal (220, 220, 220)%Z])%list /\
     (auto_page_break s = false -> y1 = y0 /\ y2 = y0))
  /\
  (PyStr.count text hl <> 1%nat ->
   bullet cw text x y (Some hl) s = bullet cw text x y None s)
  /\
  (exists s', bullet cw text x y (Some hl) s = Ok (tt, s'))
  /\
  (forall i, PyStr.occurs_at hl text i ->
             (forall j, PyStr.occurs_at hl text j -> j = i) ->
             PyStr.count text hl = 1%nat)
  /\
  ((forall i, ~ PyStr.occurs_at hl text i) -> PyStr.count text hl = 0%nat).
Proof.
  intros Hhl.
  assert (Once : PyStr.count text hl = 1%nat ->
   exists p q s' ey x0 y0 y1 y2 a0 a1 a2,
     text = p ++ hl ++ q /\
     bullet cw text x y (Some hl) s = Ok (tt, s') /\
     let normal := Font Helvetica Regular 13 in
     let bold := Font Helvetica Bold 13 in
     let w0 := cell_width a0 (string_width cw normal p) in
     let w1 := cell_width a1 (string_width cw bold hl) in
     canvas s' =
       (canvas s ++
        [Ellipse x ey 4 4 PaintF (draw_color s) (255, 107, 107)%Z;
         Cell x0 y0 w0 8 p AlignL normal (220, 220, 220)%Z;
         Cell (x0 + w0) y1 w1 8 hl AlignL bold (254, 202, 87)%Z;
         Cell (x0 + w0 + w1) y2 a2 8 q AlignL normal (220, 220, 220)%Z])%list /\
     (auto_page_break s = false -> y1 = y0 /\ y2 = y0)).
  { intros Hc.
    destruct (split_once text hl Hhl Hc) as (p & q & E & Htext).
    pose proof (truthy_nonempty hl Hhl) as T.
    exists p, q.
    unfold bullet, split. rewrite T, E.
    destruct y as [v|]; [unfold truthy_num; destruct (Qeq_bool v 0)|];
      open_canvas s; run; do 9 eexists;
      (split; [exact Htext|]); (split; [reflexivity|]);
      (split; [canvas_by_log|]);
      intros H; breaks_off H. }
  assert (Other : PyStr.count text hl <> 1%nat ->
    bullet cw text x y (Some hl) s = bullet cw text x y None s).
  { intros Hc.
    destruct (split_not_once text hl Hhl Hc) as (parts & E & L).
    exact (bullet_same_as_plain cw text x y hl parts s E L). }
  split; [exact Once|]. split; [exact Other|].
  split; [|split].
  - destruct (Nat.eq_dec (PyStr.count text hl) 1) as [Hc|Hc].
    + destruct (Once Hc) as (p & q & s' & _ & _ & _ & _ & _ & _ & _ & _ & _ & E & _).
      now exists s'.
    + rewrite (Other Hc). apply bullet_plain_ok.
  - intros i Hi Hu. exact (count_one_of_unique text hl i Hhl Hi Hu).
  - intros Hno. exact (proj2 (count_zero_iff text hl Hhl) Hno).
Qed.

Lemma bullet_highlight_witness :
  "fees" <> "" /\
  PyStr.count "Bounded fees: Always between 0.25% - 0.44%" "fees" = 1%nat /\
  exists p q s',
    "Bounded fees: Always between 0.25% - 0.44%" = p ++ "fees" ++ q /\
    bullet core_cw "Bounded fees: Always between 0.25% - 0.44%" 25 None (Some "fees")
           fresh_slide = Ok (tt, s').
Proof.
  assert (H1 : "fees" <> "") by discriminate.
  assert (H3 : PyStr.count "Bounded fees: Always between 0.25% - 0.44%" "fees" = 1%nat)
    by reflexivity.
  split; [exact H1|]. split; [exact H3|].
  destruct (proj1 (bullet_highlight core_cw "Bounded fees: Always between 0.25% - 0.44%"
                                    25 None "fees" fresh_slide H1) H3)
    as (p & q & s' & _ & _ & _ & _ & _ & _ & _ & _ & Htext & E & _).
  exists p, q, s'. split; [exact Htext|exact E].
Defined.

(** A highlight at the very start of the text leaves an empty prefix, whose
    width of [0] makes its cell run to the right margin: the highlight is
    then drawn from the right margin on (x = 287 on a page 297 wide) and the
    rest beyond it. *)
Example highlight_at_start_of_text :
  exists s',
    bullet core_cw "fees are bounded" 25 None (Some "fees") fresh_slide = Ok (tt, s') /\
    map (fun op => (cell_text op, Qred (fst (h_extent op)))) (skipn 2 (canvas s')) =
      [(Some "", 33); (Some "fees", 287); (Some " are bounded", 35541217 # 120000)].
Proof.
  eexists. split; vm_compute; reflexivity.
Qed.

(** The marker of an item drawn at the cursor: a filled dot 3 below the
    cursor ordinate, whatever the highlight and the canvas. *)
Lemma bullet_marker (cw : font_family -> font_style -> ascii -> Z)
      (text : string) (x : Q) (highlight : option string) (s : FPDF) :
  exists s' rest,
    bullet cw text x None highlight s = Ok (tt, s') /\
    canvas s' =
      (canvas s ++
       Ellipse x (cur_y s + 3) 4 4 PaintF (draw_color s) (255, 107, 107)%Z :: rest)%list.
Proof.
  assert (Plain : exists s' rest,
    bullet cw text x None None s = Ok (tt, s') /\
    canvas s' =
      (canvas s ++
       Ellipse x (cur_y s + 3) 4 4 PaintF (draw_color s) (255, 107, 107)%Z :: rest)%list).
  { open_canvas s; run; do 2 eexists; (split; [reflexivity|]); canvas_by_log. }
  destruct highlight as [hl|]; [|exact Plain].
  destruct (PyStr.truthy (Some hl)) eqn:T.
  - destruct (PyStr.split text hl) as [parts|] eqn:E.
    + destruct (Nat.eq_dec (List.length parts) 2) as [L|L].
      * destruct parts as [|p [|q [|c r]]]; try discriminate L.
        unfold bullet, split. rewrite T, E.
        open_canvas s; run; do 2 eexists; (split; [reflexivity|]); canvas_by_log.
      * rewrite (bullet_same_as_plain cw text x None hl parts s E L). exact Plain.
    + destruct hl; discriminate.
  - replace (bullet cw text x None (Some hl) s) with (bullet cw text x None None s);
      [exact Plain|].
    unfold bullet. now rewrite T.
Qed.

(** C8.  A bulleted item given [y = 0] is the item given no [y] at all: the
    cursor is not moved and the marker is drawn 3 below the ordinate the
    cursor already had.  Given a non-zero [y], the call is [set_xy(x, y)]
    followed by the item without [y]: the cursor goes to (x, y) first
    (coordinates on the page, i.e. not negative) and the marker is drawn 3
    below the ordinate [set_xy] gives. *)
Theorem bullet_ignores_zero_y (cw : font_family -> font_style -> ascii -> Z)
        (text : string) (x : Q) (highlight : option string) (s : FPDF) :
  (forall v : Q, v == 0 ->
     bullet cw text x (Some v) highlight s = bullet cw text x None highlight s)
  /\
  (exists s' rest,
     bullet cw text x (Some 0) highlight s = Ok (tt, s') /\
     canvas s' =
       (canvas s ++
        Ellipse x (cur_y s + 3) 4 4 PaintF (draw_color s) (255, 107, 107)%Z :: rest)%list)
  /\
  (forall v : Q, ~ v == 0 ->
     bullet cw text x (Some v) highlight s =
       (set_xy x v ;; bullet cw text x None highlight) s /\
     (cur_x (moved x v s), cur_y (moved x v s)) =
       (from_edge (page_w s) x, from_edge (page_h s) v) /\
     (0 <= x -> 0 <= v -> (cur_x (moved x v s), cur_y (moved x v s)) = (x, v)) /\
     exists s' rest,
       bullet cw text x (Some v) highlight s = Ok (tt, s') /\
       canvas s' =
         (canvas s ++
          Ellipse x (from_edge (page_h s) v + 3) 4 4 PaintF (draw_color s)
                  (255, 107, 107)%Z :: rest)%list).
Proof.
  assert (Zero : forall v : Q, v == 0 ->
     bullet cw text x (Some v) highlight s = bullet cw text x None highlight s).
  { intros v Hv. unfold bullet, truthy_num.
    now rewrite (proj2 (Qeq_bool_iff v 0) Hv). }
  split; [exact Zero|]. split.
  - rewrite (Zero 0 (Qeq_refl 0)). apply bullet_marker.
  - intros v Hv.
    assert (E : bullet cw text x (Some v) highlight s =
                (set_xy x v ;; bullet cw text x None highlight) s).
    { unfold bullet, truthy_num.
      destruct (Qeq_bool v 0) eqn:Ev; [apply Qeq_bool_iff in Ev; contradiction|].
      reflexivity. }
    split; [exact E|]. split; [reflexivity|].
    split.
    { intros Hx Hy.
      change (cur_x (moved x v s)) with (from_edge (page_w s) x).
      change (cur_y (moved x v s)) with (from_edge (page_h s) v).
      now rewrite !from_edge_nonneg. }
    rewrite E.
    change ((set_xy x v ;; bullet cw text x None highlight) s)
      with (bullet cw text x None highlight (moved x v s)).
    destruct (bullet_marker cw text x highlight (moved x v s)) as (s' & rest & B & C).
    exists s', rest. split; [exact B|exact C].
Qed.

Lemma bullet_ignores_zero_y_witness :
  0 == 0 /\
  bullet core_cw "Bounded fees" 25 (Some 0) None fresh_slide =
    bullet core_cw "Bounded fees" 25 None None fresh_slide /\
  ~ 115 == 0 /\
  bullet core_cw "Bounded fees" 25 (Some 115) None fresh_slide =
    (set_xy 25 115 ;; bullet core_cw "Bounded fees" 25 None None) fresh_slide.
Proof.
  assert (H0 : 0 == 0) by reflexivity.
  assert (H1 : ~ 115 == 0) by discriminate.
  pose proof (bullet_ignores_zero_y core_cw "Bounded fees" 25 None fresh_slide)
    as (Zero & _ & Moved).
  split; [exact H0|]. split; [exact (Zero 0 H0)|].
  split; [exact H1|]. exact (proj1 (Moved 115 H1)).
Defined.

(** C9.  An empty highlight never reaches [str.split] (which would raise
    [ValueError] on it): the call is the plain call, state for state, and
    raises nothing. *)
Theorem bullet_empty_highlight (cw : font_family -> font_style -> ascii -> Z)
        (text : string) (x : Q) (y : option Q) (s : FPDF) :
  PyStr.split text "" = None /\
  split text "" s = Raise ValueError /\
  bullet cw text x y (Some "") s = bullet cw text x y None s /\
  exists s', bullet cw text x y (Some "") s = Ok (tt, s').
Proof.
  split; [reflexivity|]. split; [reflexivity|].
  assert (E : bullet cw text x y (Some "") s = bullet cw text x y None s) by reflexivity.
  split; [exact E|]. rewrite E. apply bullet_plain_ok.
Qed.

(** ** The deck *)

Lemma ok_state (r : result (unit * FPDF)) (s0 : FPDF) :
  is_ok r = true -> r = Ok (tt, state_of r s0).
Proof.
  destruct r as [[[] s]|e]; [reflexivity|discriminate].
Qed.

(** C3.  Whatever the font metrics and the line breaking of the library,
    the script runs to its end without raising and leaves a document of
    exactly ten pages of 297x210, automatic page breaks off.  Read by their
    headlines the pages are, in order: title, problem, solution,
    architecture, data sources, security, tech stack, roadmap, quick start,
    thank-you; their footers number them 1 to 10; each begins with a
    297x210 background rectangle at the origin; and every drawing operation
    lies on one of the ten pages. *)
Theorem deck_has_ten_pages (cw : font_family -> font_style -> ascii -> Z)
        (line_count : font -> Q -> string -> nat) :
  exists s,
    main cw line_count = Ok (tt, s) /\
    page s = 10%nat /\
    List.length (pages s) = 10%nat /\
    map headline (pages s) =
      [Some "Sentiment Fee Hook"; Some "The Problem"; Some "Our Solution";
       Some "Architecture"; Some "Sentiment Data Sources";
       Some "Security & Anti-Manipulation"; Some "Tech Stack";
       Some "Decentralization Roadmap"; Some "Quick Start"; Some "Thank You"] /\
    map footer (pages s) =
      [Some "1"; Some "2"; Some "3"; Some "4"; Some "5";
       Some "6"; Some "7"; Some "8"; Some "9"; Some "10"] /\
    map background (pages s) = repeat (Some (0, 0, 297, 210, (26, 26, 46)%Z)) 10 /\
    forallb (fun e => Nat.leb 1 (fst e) && Nat.leb (fst e) 10) (log s) = true /\
    (page_w s, page_h s) = (297, 210) /\
    auto_page_break s = false.
Proof.
  exists (state_of (main cw line_count) SlidePDF_new).
  split; [apply ok_state; lazy; reflexivity|].
  repeat split; lazy; reflexivity.
Qed.

(** Why the constructor switches automatic page breaks off: with the
    default of the library (on, bottom margin 20) every footer, drawn at
    y = 195, would open a page of its own. *)
Example deck_with_page_breaks :
  page (state_of (deck core_cw single_line (FPDF_init Landscape A4))
                 (FPDF_init Landscape A4)) = 20%nat.
Proof. vm_compute. reflexivity. Qed.

(** ** The chip *)

(** What [tag] does on a canvas on which a font [f] is selected: the text
    is measured in [f], the font current on entry, and drawn in Helvetica
    9. *)
Lemma tag_spec (cw : font_family -> font_style -> ascii -> Z)
      (text : string) (x y : Q) (s : FPDF) (f : font) :
  auto_page_break s = false ->
  current_font s = Some f ->
  exists s',
    tag cw text x y s = Ok (string_width cw f text + 12 + 5, s') /\
    canvas s' =
      (canvas s ++
       [Rect x y (string_width cw f text + 12) 10 PaintDF (255, 107, 107)%Z (80, 40, 40)%Z;
        Cell (from_edge (page_w s) x) (from_edge (page_h s) (y + 2))
             (cell_width (page_w s - r_margin s - from_edge (page_w s) x)
                         (string_width cw f text + 12))
             6 text AlignC (Font Helvetica Regular 9) (255, 150, 150)%Z])%list /\
    auto_page_break s' = false /\
    current_font s' = Some (Font Helvetica Regular 9).
Proof.
  intros H F. open_canvas s. cbn in H, F. subst.
  destruct font_family_0 as [fam|]; [|discriminate]. injection F as <-.
  eexists. split; [run; reflexivity|].
  split; [canvas_by_log|].
  split; reflexivity.
Qed.

(** Before any [set_font] the measurement raises. *)
Example tag_before_any_font :
  tag core_cw "Dynamic Fee" 60 130 fresh_slide = Raise NoFontSet.
Proof. reflexivity. Qed.

(** C10 at the first chip of the deck.  When [tag('Dynamic Fee', 60, 130)]
    is reached on slide 1 the current font is the subtitle's Helvetica 18;
    the rectangle is 49.4015 wide, which is the width of the text in that
    font plus 12, while the text is drawn in Helvetica 9, where its width
    plus 12 is 30.70075.  The value returned is the rectangle width plus 5.
    In the finished deck the first chip of slide 1 and of slide 7 is the
    only one of its row whose width is not the fitted one. *)
Theorem first_chip_is_measured_in_previous_font :
  current_font before_first_chip = Some (Font Helvetica Regular 18) /\
  (exists r s',
     tag core_cw "Dynamic Fee" 60 130 before_first_chip = Ok (r, s') /\
     canvas s' =
       (canvas before_first_chip ++
        [Rect 60 130 (string_width core_cw (Font Helvetica Regular 18) "Dynamic Fee" + 12)
              10 PaintDF (255, 107, 107)%Z (80, 40, 40)%Z;
         Cell 60 132 (string_width core_cw (Font Helvetica Regular 18) "Dynamic Fee" + 12)
              6 "Dynamic Fee" AlignC (Font Helvetica Regular 9) (255, 150, 150)%Z])%list /\
     string_width core_cw (Font Helvetica Regular 18) "Dynamic Fee" + 12 == 98803 # 2000 /\
     string_width core_cw (Font Helvetica Regular 9) "Dynamic Fee" + 12 == 122803 # 4000 /\
     ~ string_width core_cw (Font Helvetica Regular 18) "Dynamic Fee" + 12 ==
       string_width core_cw (Font Helvetica Regular 9) "Dynamic Fee" + 12 /\
     r == (98803 # 2000) + 5) /\
  (let s := state_of (main core_cw single_line) SlidePDF_new in
   chip_widths (page_ops 1 s) =
     [98803 # 2000; 1312739 # 40000; 170803 # 8000; 238237 # 10000; 92639 # 5000] /\
   map (fitted_width core_cw) ["Dynamic Fee"; "Custom Hooks"; "Oracle"; "LP Fees"; "DEX"] =
     [122803 # 4000; 1312739 # 40000; 170803 # 8000; 238237 # 10000; 92639 # 5000] /\
   chip_widths (page_ops 7 s) =
     [13094557 # 360000; 236459 # 10000; 71021 # 2500; 1086933 # 40000;
      959933 # 40000; 1277687 # 40000] /\
   map (fitted_width core_cw)
       ["Solidity 0.8.26"; "Foundry"; "Uniswap v4"; "TypeScript"; "ethers.js"; "OpenZeppelin"] =
     [1277687 # 40000; 236459 # 10000; 71021 # 2500; 1086933 # 40000;
      959933 # 40000; 1277687 # 40000]).
Proof.
  split; [reflexivity|]. split.
  - destruct (tag_spec core_cw "Dynamic Fee" 60 130 before_first_chip
                       (Font Helvetica Regular 18) eq_refl eq_refl)
      as (s' & E & C & _).
    exists (string_width core_cw (Font Helvetica Regular 18) "Dynamic Fee" + 12 + 5), s'.
    split; [exact E|]. split; [exact C|].
    repeat split; try (vm_compute; reflexivity).
    vm_compute. discriminate.
  - repeat split; vm_compute; reflexivity.
Qed.

(** C1 on a slide where a 5 pt font is current.  [tag('Dynamic Fee', 60,
    130)] draws a rectangle about 22.39 wide and returns about 27.39; the
    text, drawn in Helvetica 9, is about 18.70 wide, so the returned width
    is below the rendered text width plus the padding of 12 (30.70075). *)
Theorem tag_return_below_rendered_width :
  current_font small_print = Some (Font Helvetica Regular 5) /\
  exists r s',
    tag core_cw "Dynamic Fee" 60 130 small_print = Ok (r, s') /\
    canvas s' =
      (canvas small_print ++
       [Rect 60 130 (8060150 # 360000) 10 PaintDF (255, 107, 107)%Z (80, 40, 40)%Z;
        Cell 60 132 (8060150 # 360000) 6 "Dynamic Fee" AlignC
             (Font Helvetica Regular 9) (255, 150, 150)%Z])%list /\
    r == 197203 # 7200 /\
    string_width core_cw (Font Helvetica Regular 9) "Dynamic Fee" + 12 == 122803 # 4000 /\
    r < string_width core_cw (Font Helvetica Regular 9) "Dynamic Fee" + 12.
Proof.
  split; [reflexivity|].
  eexists. eexists. split; [vm_compute; reflexivity|].
  repeat split; vm_compute; reflexivity.
Qed.

(** *** A row of chips *)

Lemma row_widths_fitted (cw : font_family -> font_style -> ascii -> Z) (ts : list string) :
  row_widths cw (Font Helvetica Regular 9) ts =
    map (fun t => string_width cw (Font Helvetica Regular 9) t + 12) ts.
Proof.
  destruct ts; reflexivity.
Qed.

(** The rectangles of [x = x0; for t in texts: x += tag(t, x, y)]: each
    starts where the previous one ended plus 5. *)
Lemma tag_run_rects (cw : font_family -> font_style -> ascii -> Z) (texts : list string) :
  forall (x0 y : Q) (s : FPDF) (f : font),
    auto_page_break s = false ->
    current_font s = Some f ->
    exists xe s' ops,
      tag_run cw texts x0 y s = Ok (xe, s') /\
      canvas s' = (canvas s ++ ops)%list /\
      map h_extent (filter is_rect ops) = chain x0 (row_widths cw f texts).
Proof.
  induction texts as [|t ts IH]; intros x0 y s f H F.
  - exists x0, s, []. split; [reflexivity|]. split; [now rewrite app_nil_r|reflexivity].
  - destruct (tag_spec cw t x0 y s f H F) as (s1 & E & C & H1 & F1).
    destruct (IH (x0 + (string_width cw f t + 12 + 5)) y s1 _ H1 F1)
      as (xe & s' & ops & E' & C' & R').
    exists xe, s'. eexists. split; [|split].
    + unfold tag_run in *. cbn [for_acc]. unfold bind at 1 2. rewrite E.
      unfold ret at 1. exact E'.
    + rewrite C', C, <- app_assoc. reflexivity.
    + cbn [app filter is_rect map h_extent row_widths chain].
      rewrite R', row_widths_fitted. reflexivity.
Qed.

Lemma chain_starts_right (x : Q) (ws : list Q) :
  Forall (fun w => 0 <= w) ws ->
  Forall (fun b => x <= fst b) (chain x ws).
Proof.
  intros Hws. revert x. induction Hws as [|w ws Hw _ IH]; intros x; cbn [chain].
  - constructor.
  - constructor; [cbn; lra|].
    eapply Forall_impl; [|apply IH]. cbn. intros b Hb. lra.
Qed.

Lemma chain_spaced (x : Q) (ws : list Q) :
  Forall (fun w => 0 <= w) ws ->
  ForallOrdPairs (fun a b => snd a + 5 <= fst b) (chain x ws).
Proof.
  intros Hws. revert x. induction Hws as [|w ws Hw Hws IH]; intros x; cbn [chain].
  - constructor.
  - constructor; [|apply IH].
    eapply Forall_impl; [|apply (chain_starts_right (x + (w + 5)) ws Hws)].
    cbn. intros b Hb. lra.
Qed.

Lemma cw_sum_nonneg (cw : font_family -> font_style -> ascii -> Z)
      (fam : font_family) (sty : font_style) (txt : string) :
  (forall c, 0 <= cw fam sty c)%Z -> (0 <= cw_sum cw fam sty txt)%Z.
Proof.
  intros Hcw. induction txt as [|c txt IH]; cbn [cw_sum]; [lia|].
  specialize (Hcw c). lia.
Qed.

Lemma string_width_nonneg (cw : font_family -> font_style -> ascii -> Z)
      (f : font) (txt : string) :
  (forall fam sty c, 0 <= cw fam sty c)%Z ->
  0 <= size_pt f ->
  0 <= string_width cw f txt.
Proof.
  intros Hcw Hsz. unfold string_width.
  assert (0 <= inject_Z (cw_sum cw (family f) (style f) txt)) as Hs.
  { change 0 with (inject_Z 0). rewrite <- Zle_Qle. apply cw_sum_nonneg. apply Hcw. }
  apply Qmult_le_0_compat; [apply Qmult_le_0_compat; assumption|discriminate].
Qed.

(** X11.  The part of C1 and C10 that holds: in a row of chips laid out with
    the returned widths, every chip starts at least 5 to the right of the end of
    every chip before it, and exactly 5 to the right of its predecessor. *)
Lemma chips_in_a_row_do_not_overlap (cw : font_family -> font_style -> ascii -> Z)
      (texts : list string) (x0 y : Q) (s : FPDF) (f : font) :
  (forall fam sty c, 0 <= cw fam sty c)%Z ->
  auto_page_break s = false ->
  current_font s = Some f ->
  0 <= size_pt f ->
  exists xe s' ops,
    tag_run cw texts x0 y s = Ok (xe, s') /\
    canvas s' = (canvas s ++ ops)%list /\
    map h_extent (filter is_rect ops) = chain x0 (row_widths cw f texts) /\
    ForallOrdPairs (fun a b => snd a + 5 <= fst b) (map h_extent (filter is_rect ops)).
Proof.
  intros Hcw H F Hsz.
  destruct (tag_run_rects cw texts x0 y s f H F) as (xe & s' & ops & E & C & R).
  exists xe, s', ops. repeat split; try assumption.
  rewrite R. apply chain_spaced.
  destruct texts as [|t ts]; cbn [row_widths]; constructor.
  - pose proof (string_width_nonneg cw f t Hcw Hsz). lra.
  - apply Forall_forall. intros w Hin. apply in_map_iff in Hin as (t' & <- & _).
    assert (0 <= string_width cw (Font Helvetica Regular 9) t')
      by (apply string_width_nonneg; [exact Hcw|discriminate]).
    lra.
Qed.

(** * More of the composer *)

(** ** Relations kept along a method body *)

Section Respects.

Variable R : FPDF -> FPDF -> Prop.
Hypothesis R_refl : forall s, R s s.
Hypothesis R_trans : forall s1 s2 s3, R s1 s2 -> R s2 s3 -> R s1 s3.

Lemma respects_ret {A} (a : A) : respects R (ret a).
Proof.
  intros s a' s' E. injection E as _ <-. apply R_refl.
Qed.

Lemma respects_bind {A B} (m : M A) (k : A -> M B) :
  respects R m -> (forall a, respects R (k a)) -> respects R (bind m k).
Proof.
  intros Hm Hk s b s' E. unfold bind in E.
  destruct (m s) as [[a s1]|e] eqn:E1; [|discriminate].
  exact (R_trans _ _ _ (Hm _ _ _ E1) (Hk a _ _ _ E)).
Qed.

Lemma respects_gets {A} (f : FPDF -> A) : respects R (gets f).
Proof.
  intros s a s' E. injection E as _ <-. apply R_refl.
Qed.

Lemma respects_raise {A} (e : exn) : respects R (@raise A e).
Proof.
  intros s a s' E. discriminate E.
Qed.

Lemma respects_modify (f : FPDF -> FPDF) :
  (forall s, R s (f s)) -> respects R (modify f).
Proof.
  intros Hf s a s' E. injection E as _ <-. apply Hf.
Qed.

Lemma respects_for_each {A} (l : list A) (body : A -> M unit) :
  (forall v, respects R (body v)) -> respects R (for_each l body).
Proof.
  intros Hb. induction l as [|v l IH]; cbn [for_each].
  - apply respects_ret.
  - apply respects_bind; [apply Hb|intros _; exact IH].
Qed.

Lemma respects_for_acc {A B} (l : list A) (body : A -> B -> M B) :
  (forall v acc, respects R (body v acc)) ->
  forall acc, respects R (for_acc l acc body).
Proof.
  intros Hb. induction l as [|v l IH]; intros acc; cbn [for_acc].
  - apply respects_ret.
  - apply respects_bind; [apply Hb|intros acc'; apply IH].
Qed.

Lemma respects_get_string_width (cw : font_family -> font_style -> ascii -> Z)
      (txt : string) :
  respects R (get_string_width cw txt).
Proof.
  intros s a s' E. unfold get_string_width in E.
  destruct (current_font s); [|discriminate].
  injection E as _ <-. apply R_refl.
Qed.

End Respects.

(** A method body is taken apart into its primitives; [leaf] settles the
    state changes and the cells. *)
Ltac respects_with refl trans leaf :=
  repeat first
    [ apply (respects_bind _ trans); [|intros ?]
    | apply (respects_for_each _ refl trans); intros ?
    | apply (respects_for_acc _ refl trans); intros ? ?
    | apply (respects_ret _ refl)
    | apply (respects_gets _ refl)
    | apply respects_raise
    | apply (respects_get_string_width _ refl)
    | leaf
    | match goal with
      | |- respects _ (match ?d with _ => _ end) => destruct d
      end ].

Ltac unfold_methods :=
  unfold add_slide, slide_number, title_text, subtitle_text, heading, body_text,
         bullet, box, fee_row, stat_box, tag, code_box, tag_run, split,
         add_page, set_fill_color, set_draw_color, set_text_color, set_font,
         set_xy, set_x, set_y, get_y, rect, ellipse, out.

(** ** Methods only add to the canvas *)

Lemma sorted_snoc (l : list nat) (p : nat) :
  StronglySorted le l -> Forall (fun a => a <= p)%nat l -> StronglySorted le (l ++ [p]).
Proof.
  induction 1 as [|a l Hs IH Ha]; intros Hp; cbn.
  - repeat constructor.
  - inversion Hp as [|? ? Hap Hlp]; subst. constructor; [now apply IH|].
    apply Forall_app. split; [exact Ha|]. now repeat constructor.
Qed.

Lemma sorted_app (l1 l2 : list nat) (p : nat) :
  StronglySorted le l1 -> StronglySorted le l2 ->
  Forall (fun a => a <= p)%nat l1 -> Forall (fun b => p <= b)%nat l2 ->
  StronglySorted le (l1 ++ l2).
Proof.
  intros H1 H2 Hl1 Hl2. induction H1 as [|a l Hs IH Ha]; cbn; [exact H2|].
  inversion Hl1 as [|? ? Hap Hlp]; subst. constructor; [now apply IH|].
  apply Forall_app. split; [exact Ha|].
  eapply Forall_impl; [|exact Hl2]. cbn. intros b Hb. lia.
Qed.

Lemma grows_refl (s : FPDF) : grows s s.
Proof.
  split; [repeat split|]. split; [lia|].
  exists []. split; [now rewrite app_nil_r|]. split; constructor.
Qed.

Lemma grows_trans (s1 s2 s3 : FPDF) : grows s1 s2 -> grows s2 s3 -> grows s1 s3.
Proof.
  intros (G1 & P1 & l1 & L1 & F1 & S1) (G2 & P2 & l2 & L2 & F2 & S2).
  split.
  { destruct G1 as (?&?&?&?&?&?), G2 as (?&?&?&?&?&?). repeat split; congruence. }
  split; [lia|].
  exists (l1 ++ l2)%list. split; [now rewrite L2, L1, app_assoc|]. split.
  - apply Forall_app. split; (eapply Forall_impl; [|eassumption]); cbn; intros e He; lia.
  - rewrite map_app. apply (sorted_app _ _ (page s2)); try assumption.
    + apply Forall_map. eapply Forall_impl; [|exact F1]. cbn. intros e He. lia.
    + apply Forall_map. eapply Forall_impl; [|exact F2]. cbn. intros e He. lia.
Qed.

(** A change of cursor, colours or font is no change of content. *)
Lemma grows_same_content (s s' : FPDF) :
  same_geometry s s' -> page s' = page s -> log s' = log s -> grows s s'.
Proof.
  intros G P L. split; [exact G|]. split; [lia|].
  exists []. split; [now rewrite app_nil_r|]. split; constructor.
Qed.

(** One operation put on the current page, or on the next one. *)
Lemma grows_one (s s' : FPDF) (op : draw_op) :
  same_geometry s s' ->
  (page s' = page s \/ page s' = S (page s)) ->
  log s' = (log s ++ [(page s', op)])%list ->
  grows s s'.
Proof.
  intros G P L. split; [exact G|]. split; [lia|].
  exists [(page s', op)]. split; [exact L|]. split.
  - constructor; [cbn; lia|constructor].
  - cbn. repeat constructor.
Qed.

Lemma grows_cell (w h : Q) (txt : string) (al : align) (ln : bool) :
  respects grows (cell w h txt al ln).
Proof.
  intros s a s' E. unfold cell in E.
  destruct (current_font s) as [f|]; [|discriminate].
  injection E as _ <-.
  eapply grows_one.
  - destruct ln; repeat split.
  - destruct ln; cbn; destruct (breaks_before h s); auto.
  - destruct ln; reflexivity.
Qed.

Lemma grows_multi_cell (line_count : font -> Q -> string -> nat) (w h : Q) (txt : string) :
  respects grows (multi_cell line_count w h txt).
Proof.
  intros s a s' E. unfold multi_cell in E.
  destruct (current_font s) as [f|]; [|discriminate].
  injection E as _ <-.
  eapply grows_one.
  - repeat split.
  - cbn; destruct (breaks_before h s); auto.
  - reflexivity.
Qed.

Ltac grows_leaf :=
  first
    [ apply grows_cell
    | apply grows_multi_cell
    | apply respects_modify; intros ?;
      first [ apply grows_same_content; [repeat split|reflexivity|reflexivity]
            | eapply grows_one; [repeat split|left; reflexivity|reflexivity]
            | split; [repeat split|]; split; [cbn; lia|];
              exists []; split; [now rewrite app_nil_r|]; split; constructor ] ].

(** X1.  No method of [SlidePDF] changes or removes what is already drawn,
    changes the page size or the margins, or goes back a page: the content
    after a call is the content before followed by new operations, which
    lie on the pages from the current one onwards, in page order. *)
Theorem methods_only_grow
        (cw : font_family -> font_style -> ascii -> Z)
        (line_count : font -> Q -> string -> nat) :
  (forall bg, respects grows (add_slide bg)) /\
  (forall num, respects grows (slide_number num)) /\
  (forall text y size, respects grows (title_text text y size)) /\
  (forall text y size, respects grows (subtitle_text text y size)) /\
  (forall text y, respects grows (heading text y)) /\
  (forall text x y size, respects grows (body_text line_count text x y size)) /\
  (forall text x y highlight, respects grows (bullet cw text x y highlight)) /\
  (forall x y w h title items, respects grows (box x y w h title items)) /\
  (forall label fee c y, respects grows (fee_row label fee c y)) /\
  (forall x y number label, respects grows (stat_box x y number label)) /\
  (forall text x y, respects grows (tag cw text x y)) /\
  (forall text y, respects grows (code_box text y)).
Proof.
  repeat match goal with |- _ /\ _ => split end; intros; unfold_methods;
    respects_with grows_refl grows_trans grows_leaf.
Qed.

(** ** Pages are started by [add_slide] only *)

Lemma stays_refl (s : FPDF) : stays_on_page s s.
Proof.
  intros H. split; [exact H|]. split; [reflexivity|].
  exists []. split; [now rewrite app_nil_r|constructor].
Qed.

Lemma stays_trans (s1 s2 s3 : FPDF) :
  stays_on_page s1 s2 -> stays_on_page s2 s3 -> stays_on_page s1 s3.
Proof.
  intros H12 H23 H.
  destruct (H12 H) as (H2 & P2 & l1 & L1 & F1).
  destruct (H23 H2) as (H3 & P3 & l2 & L2 & F2).
  split; [exact H3|]. split; [congruence|].
  exists (l1 ++ l2)%list. split; [now rewrite L2, L1, app_assoc|].
  apply Forall_app. split; [exact F1|].
  eapply Forall_impl; [|exact F2]. cbn. intros e He. congruence.
Qed.

Lemma breaks_before_off (h : Q) (s : FPDF) :
  auto_page_break s = false -> breaks_before h s = false.
Proof.
  intros H. unfold breaks_before. now rewrite H.
Qed.

(** A change of cursor, colours or font draws nothing. *)
Lemma stays_same_content (s s' : FPDF) :
  auto_page_break s' = auto_page_break s -> page s' = page s -> log s' = log s ->
  stays_on_page s s'.
Proof.
  intros A P L H. split; [congruence|]. split; [exact P|].
  exists []. split; [now rewrite app_nil_r|constructor].
Qed.

(** One operation put on the current page. *)
Lemma stays_one (s s' : FPDF) (op : draw_op) :
  auto_page_break s' = auto_page_break s -> page s' = page s ->
  log s' = (log s ++ [(page s, op)])%list ->
  stays_on_page s s'.
Proof.
  intros A P L H. split; [congruence|]. split; [exact P|].
  exists [(page s, op)]. split; [exact L|]. now repeat constructor.
Qed.

Lemma stays_cell (w h : Q) (txt : string) (al : align) (ln : bool) :
  respects stays_on_page (cell w h txt al ln).
Proof.
  intros s a s' E H. revert H. unfold cell in E.
  destruct (current_font s) as [f|]; [|discriminate].
  injection E as _ <-. intros H.
  pose proof (breaks_before_off h s H) as B.
  revert H. eapply stays_one.
  - now destruct ln.
  - destruct ln; cbn; now rewrite B.
  - destruct ln; cbn; rewrite B; reflexivity.
Qed.

Lemma stays_multi_cell (line_count : font -> Q -> string -> nat) (w h : Q) (txt : string) :
  respects stays_on_page (multi_cell line_count w h txt).
Proof.
  intros s a s' E H. revert H. unfold multi_cell in E.
  destruct (current_font s) as [f|]; [|discriminate].
  injection E as _ <-. intros H.
  pose proof (breaks_before_off h s H) as B.
  revert H. eapply stays_one.
  - reflexivity.
  - cbn; now rewrite B.
  - cbn; rewrite B; reflexivity.
Qed.

Ltac stays_leaf :=
  first
    [ apply stays_cell
    | apply stays_multi_cell
    | apply respects_modify; intros ?;
      first [ apply stays_same_content; reflexivity
            | eapply stays_one; reflexivity ] ].

(** X2.  [add_slide] starts exactly one page.  With automatic page breaks
    off, as the constructor leaves them, no other method starts a page or
    switches the breaks back on, and whatever such a method draws is on the
    page that was current when it was called: the content after the call is
    the content before followed by operations on that page only. *)
Theorem pages_start_only_with_add_slide
        (cw : font_family -> font_style -> ascii -> Z)
        (line_count : font -> Q -> string -> nat) :
  (forall bg s a s', add_slide bg s = Ok (a, s') -> page s' = S (page s)) /\
  (forall num, respects stays_on_page (slide_number num)) /\
  (forall text y size, respects stays_on_page (title_text text y size)) /\
  (forall text y size, respects stays_on_page (subtitle_text text y size)) /\
  (forall text y, respects stays_on_page (heading text y)) /\
  (forall text x y size, respects stays_on_page (body_text line_count text x y size)) /\
  (forall text x y highlight, respects stays_on_page (bullet cw text x y highlight)) /\
  (forall x y w h title items, respects stays_on_page (box x y w h title items)) /\
  (forall label fee c y, respects stays_on_page (fee_row label fee c y)) /\
  (forall x y number label, respects stays_on_page (stat_box x y number label)) /\
  (forall text x y, respects stays_on_page (tag cw text x y)) /\
  (forall text y, respects stays_on_page (code_box text y)).
Proof.
  split.
  { intros [[r g] b] s a s' E. injection E as _ <-. reflexivity. }
  repeat match goal with |- _ /\ _ => split end; intros; unfold_methods;
    respects_with stays_refl stays_trans stays_leaf.
Qed.

(** The heading of the second slide is drawn on the page [add_slide]
    opened. *)
Lemma pages_start_only_with_add_slide_witness :
  auto_page_break fresh_slide = false /\
  heading "The Problem" 20 fresh_slide = Ok (tt, heading_drawn) /\
  auto_page_break heading_drawn = false /\
  page heading_drawn = page fresh_slide /\
  exists l,
    log heading_drawn = (log fresh_slide ++ l)%list /\
    Forall (fun e => fst e = page fresh_slide) l.
Proof.
  assert (H : auto_page_break fresh_slide = false) by reflexivity.
  assert (E : heading "The Problem" 20 fresh_slide = Ok (tt, heading_drawn))
    by (vm_compute; reflexivity).
  split; [exact H|]. split; [exact E|].
  exact (proj1 (proj2 (proj2 (proj2 (proj2
           (pages_start_only_with_add_slide core_cw single_line)))))
           "The Problem" 20 fresh_slide tt heading_drawn E H).
Defined.

(** ** Which calls need a font *)

Ltac returns := intros s; destruct s; do 2 eexists; eval_body; reflexivity.

Lemma box_items_return (x w : Q) (items : list string) :
  forall s, font_family_ s <> None ->
  exists s',
    for_each items (fun item =>
      set_fill_color 255 107 107 ;;
      y0 <- get_y ;;
      ellipse (x + 8) (y0 + 2) 3 3 PaintF ;;
      y1 <- get_y ;;
      set_xy (x + 14) y1 ;;
      cell (w - 20) 6 item AlignL true ;;
      y2 <- get_y ;;
      set_y (y2 + 1)) s = Ok (tt, s').
Proof.
  induction items as [|item items IH]; intros s F.
  - now exists s.
  - cbn [for_each]. unfold bind at 1.
    match goal with
    | |- context [match ?body s with _ => _ end] =>
        assert (B : exists s1, body s = Ok (tt, s1) /\ font_family_ s1 <> None)
    end.
    { destruct s. cbn in F. destruct font_family_0 as [fam|]; [|congruence].
      eexists. split; [eval_body; reflexivity|discriminate]. }
    destruct B as (s1 & -> & F1). exact (IH s1 F1).
Qed.

Lemma box_returns (x y w h : Q) (title : string) (items : list string) :
  never_raises (box x y w h title items).
Proof.
  intros s. exists tt. unfold box.
  match goal with
  | |- context [for_each items ?body] => remember (for_each items body) as loop eqn:L
  end.
  destruct s. eval_body. rewrite L. apply box_items_return. discriminate.
Qed.

Lemma bullet_returns (cw : font_family -> font_style -> ascii -> Z)
      (text : string) (x : Q) (y : option Q) (highlight : option string) :
  never_raises (bullet cw text x y highlight).
Proof.
  intros s. unfold bullet, split.
  destruct y as [v|]; [destruct (truthy_num (Some v))|];
    (destruct highlight as [hl|];
     [destruct (PyStr.truthy (Some hl)) eqn:T;
      [destruct (PyStr.split text hl) as [[|p [|q [|r l]]]|] eqn:E;
       [| | | |destruct hl; discriminate]|]|]);
    destruct s; do 2 eexists; eval_body; reflexivity.
Qed.

Lemma returns_with_font {A} (m : M A) : never_raises m -> never_lacks_font m.
Proof.
  intros R s E. destruct (R s) as (a & s' & E'). congruence.
Qed.

(** X3.  [tag] is the only method that can fail for want of a font: it
    measures the text before it selects its own font, so it fails with the
    no-font error exactly when no font is selected on entry.  Every other
    method selects its font before it writes and never fails in that way,
    whether or not a font was ever selected. *)
Theorem only_tag_needs_a_font
        (cw : font_family -> font_style -> ascii -> Z)
        (line_count : font -> Q -> string -> nat) :
  (forall bg, never_lacks_font (add_slide bg)) /\
  (forall num, never_lacks_font (slide_number num)) /\
  (forall text y size, never_lacks_font (title_text text y size)) /\
  (forall text y size, never_lacks_font (subtitle_text text y size)) /\
  (forall text y, never_lacks_font (heading text y)) /\
  (forall text x y size, never_lacks_font (body_text line_count text x y size)) /\
  (forall text x y highlight, never_lacks_font (bullet cw text x y highlight)) /\
  (forall x y w h title items, never_lacks_font (box x y w h title items)) /\
  (forall label fee c y, never_lacks_font (fee_row label fee c y)) /\
  (forall x y number label, never_lacks_font (stat_box x y number label)) /\
  (forall text y, never_lacks_font (code_box text y)) /\
  (forall text x y s,
      (current_font s = None -> tag cw text x y s = Raise NoFontSet) /\
      (current_font s <> None -> tag cw text x y s <> Raise NoFontSet)).
Proof.
  split; [intros [[r g] b]; apply returns_with_font; returns|].
  do 5 (split; [intros; apply returns_with_font; returns|]).
  split; [intros; apply returns_with_font, bullet_returns|].
  split; [intros; apply returns_with_font, box_returns|].
  split; [intros label fee [[r g] b] y; apply returns_with_font; returns|].
  do 2 (split; [intros; apply returns_with_font; returns|]).
  intros text x y s. destruct s.
  destruct font_family_0 as [fam|]; split; intros F.
  - discriminate F.
  - eval_body. discriminate.
  - reflexivity.
  - exfalso. apply F. reflexivity.
Qed.

Lemma only_tag_needs_a_font_witness :
  current_font fresh_slide = None /\
  tag core_cw "Dynamic Fee" 60 130 fresh_slide = Raise NoFontSet /\
  current_font before_first_chip <> None /\
  tag core_cw "Dynamic Fee" 60 130 before_first_chip <> Raise NoFontSet.
Proof.
  pose proof (proj2 (proj2 (proj2 (proj2 (proj2 (proj2 (proj2 (proj2 (proj2 (proj2 (proj2
    (only_tag_needs_a_font core_cw single_line)))))))))))) as T.
  assert (F0 : current_font fresh_slide = None) by reflexivity.
  assert (F1 : current_font before_first_chip <> None) by discriminate.
  split; [exact F0|].
  split; [exact (proj1 (T "Dynamic Fee" 60 130 fresh_slide) F0)|].
  split; [exact F1|].
  exact (proj2 (T "Dynamic Fee" 60 130 before_first_chip) F1).
Defined.

(** ** The labelled box with its items *)

Lemma box_items_layout (x w : Q) (items : list string) :
  forall s,
    auto_page_break s = false ->
    current_font s = Some (Font Helvetica Regular 11) ->
    text_color s = (200, 200, 200)%Z ->
    0 <= cur_y s ->
    exists s',
      for_each items (fun item =>
        set_fill_color 255 107 107 ;;
        y0 <- get_y ;;
        ellipse (x + 8) (y0 + 2) 3 3 PaintF ;;
        y1 <- get_y ;;
        set_xy (x + 14) y1 ;;
        cell (w - 20) 6 item AlignL true ;;
        y2 <- get_y ;;
        set_y (y2 + 1)) s = Ok (tt, s') /\
      canvas s' =
        (canvas s ++
         item_ops (draw_color s) (x + 8) (from_edge (page_w s) (x + 14))
                  (cell_width (page_w s - r_margin s - from_edge (page_w s) (x + 14)) (w - 20))
                  (cur_y s) items)%list.
Proof.
  induction items as [|item items IH]; intros s H F T Y.
  - exists s. split; [reflexivity|]. cbn [item_ops]. now rewrite app_nil_r.
  - cbn [for_each]. unfold bind at 1.
    match goal with
    | |- context [match ?body s with _ => _ end] =>
        assert (B : exists s1,
          body s = Ok (tt, s1) /\
          auto_page_break s1 = false /\
          current_font s1 = Some (Font Helvetica Regular 11) /\
          text_color s1 = (200, 200, 200)%Z /\
          cur_y s1 = cur_y s + 6 + 1 /\
          draw_color s1 = draw_color s /\
          (page_w s1, r_margin s1) = (page_w s, r_margin s) /\
          canvas s1 =
            (canvas s ++
             [Ellipse (x + 8) (cur_y s + 2) 3 3 PaintF (draw_color s) (255, 107, 107)%Z;
              Cell (from_edge (page_w s) (x + 14)) (cur_y s)
                   (cell_width (page_w s - r_margin s - from_edge (page_w s) (x + 14))
                               (w - 20))
                   6 item AlignL (Font Helvetica Regular 11) (200, 200, 200)%Z])%list)
    end.
    { destruct s. cbn in H, F, T, Y. subst.
      destruct font_family_0 as [fam|]; [|discriminate]. injection F as -> -> ->.
      assert (Y1 : 0 <= cur_y0 + 6 + 1) by lra.
      eexists. split; [eval_body; reflexivity|].
      cbn [auto_page_break current_font font_family_ font_style_ font_size_pt
           text_color cur_y draw_color page_w r_margin].
      rewrite !(from_edge_nonneg page_h0 cur_y0 Y).
      rewrite (from_edge_nonneg page_h0 (cur_y0 + 6 + 1) Y1).
      repeat (split; [reflexivity|]).
      canvas_by_log. }
    destruct B as (s1 & -> & H1 & F1 & T1 & Y1 & D1 & G1 & C1).
    injection G1 as Gw Gr.
    destruct (IH s1 H1 F1 T1) as (s' & E' & C'); [rewrite Y1; lra|].
    exists s'. split; [exact E'|].
    rewrite C', C1, Y1, D1, Gw, Gr, <- app_assoc. reflexivity.
Qed.

(** X4.  [box] with any list of items, on a canvas with automatic page
    breaks off and the box low enough on the page that [y + 18] is not
    negative: after the frame and the title, each item gets a dot at
    [x + 8] and a cell 6 high at [x + 14], the first at [y + 18] and each
    further one 6 + 1 lower.  The height [h] of the box occurs in the frame
    only: the items are laid out the same whether they fit or not. *)
Theorem box_layout (s : FPDF) (x y w h : Q) (title : string) (items : list string) :
  auto_page_break s = false ->
  0 <= y + 18 ->
  exists s',
    box x y w h title items s = Ok (tt, s') /\
    canvas s' =
      (canvas s ++
       Rect x y w h PaintDF (80, 80, 100)%Z (40, 40, 60)%Z
       :: Cell (from_edge (page_w s) (x + 5)) (from_edge (page_h s) (y + 5))
               (cell_width (page_w s - r_margin s - from_edge (page_w s) (x + 5)) (w - 10))
               8 title AlignL (Font Helvetica Bold 14) (72, 219, 251)%Z
       :: item_ops (80, 80, 100)%Z (x + 8) (from_edge (page_w s) (x + 14))
                   (cell_width (page_w s - r_margin s - from_edge (page_w s) (x + 14))
                               (w - 20))
                   (y + 18) items)%list.
Proof.
  intros H Y. unfold box.
  match goal with
  | |- context [for_each items ?body] => remember (for_each items body) as loop eqn:L
  end.
  destruct s. cbn in H. subst auto_page_break0.
  eval_body.
  rewrite (from_edge_nonneg page_h0 (y + 18) Y), L.
  match goal with
  | |- context [for_each items _ ?s1] =>
      destruct (box_items_layout x w items s1 eq_refl eq_refl eq_refl Y) as (s' & E & C)
  end.
  exists s'. split; [exact E|].
  rewrite C. unfold canvas.
  cbn [log draw_color page_w r_margin cur_y].
  rewrite !map_app, <- !app_assoc. reflexivity.
Qed.

Lemma box_layout_witness :
  auto_page_break fresh_slide = false /\
  0 <= 70 + 18 /\
  exists s',
    box 20 70 125 70 "Bull Markets (Greed)"
        ["Traders willingly pay more"; "LPs miss potential revenue"] fresh_slide
      = Ok (tt, s') /\
    skipn 3 (canvas s') =
      [Ellipse 28 90 3 3 PaintF (80, 80, 100)%Z (255, 107, 107)%Z;
       Cell 34 88 105 6 "Traders willingly pay more" AlignL
            (Font Helvetica Regular 11) (200, 200, 200)%Z;
       Ellipse 28 97 3 3 PaintF (80, 80, 100)%Z (255, 107, 107)%Z;
       Cell 34 95 105 6 "LPs miss potential revenue" AlignL
            (Font Helvetica Regular 11) (200, 200, 200)%Z].
Proof.
  assert (H : auto_page_break fresh_slide = false) by reflexivity.
  assert (Y : 0 <= 70 + 18) by discriminate.
  split; [exact H|]. split; [exact Y|].
  destruct (box_layout fresh_slide 20 70 125 70 "Bull Markets (Greed)"
              ["Traders willingly pay more"; "LPs miss potential revenue"] H Y)
    as (s' & E & C).
  exists s'. split; [exact E|]. rewrite C. reflexivity.
Defined.

(** ** Text stays inside its widget *)

Ltac on_page :=
  repeat match goal with
         | H : 0 <= ?v |- context [from_edge ?e ?v] => rewrite (from_edge_nonneg e v H)
         end.

Ltac inside_box :=
  unfold inside; cbn [h_extent v_extent fst snd];
  rewrite ?from_edge_nonneg by discriminate;
  rewrite ?cell_width_nonzero by discriminate; lra.

(** X5.  In the statistic tile, the fee row and the code strip, drawn at a
    position on the page with automatic page breaks off, every text cell
    lies within the rectangle drawn first. *)
Theorem text_cells_inside_frame (s : FPDF) :
  auto_page_break s = false ->
  (forall x y number label, 0 <= x -> 0 <= y ->
     exists s' r c1 c2,
       stat_box x y number label s = Ok (tt, s') /\
       canvas s' = (canvas s ++ [r; c1; c2])%list /\
       is_rect r = true /\ inside c1 r /\ inside c2 r)
  /\
  (forall label fee c y, 0 <= y ->
     exists s' r c1 c2,
       fee_row label fee c y s = Ok (tt, s') /\
       canvas s' = (canvas s ++ [r; c1; c2])%list /\
       is_rect r = true /\ inside c1 r /\ inside c2 r)
  /\
  (forall text y, 0 <= y ->
     exists s' r c1,
       code_box text y s = Ok (tt, s') /\
       canvas s' = (canvas s ++ [r; c1])%list /\
       is_rect r = true /\ inside c1 r).
Proof.
  intros H. destruct s. cbn in H. subst auto_page_break0.
  split; [|split].
  - intros x y number label Hx Hy.
    assert (0 <= y + 8) by lra. assert (0 <= y + 30) by lra.
    do 4 eexists. split; [eval_body; reflexivity|].
    split; [canvas_by_log|]. split; [reflexivity|].
    on_page. split; inside_box.
  - intros label fee [[r g] b] y Hy.
    assert (0 <= y + 4) by lra. assert (0 <= y + 3) by lra.
    do 4 eexists. split; [eval_body; reflexivity|].
    split; [canvas_by_log|]. split; [reflexivity|].
    on_page. split; inside_box.
  - intros text y Hy.
    assert (0 <= y + 3) by lra.
    do 3 eexists. split; [eval_body; reflexivity|].
    split; [canvas_by_log|]. split; [reflexivity|].
    on_page. inside_box.
Qed.

Lemma text_cells_inside_frame_witness :
  auto_page_break fresh_slide = false /\
  0 <= 40 /\ 0 <= 55 /\
  exists s' r c1 c2,
    stat_box 40 55 "50" "Test Cases" fresh_slide = Ok (tt, s') /\
    canvas s' = (canvas fresh_slide ++ [r; c1; c2])%list /\
    is_rect r = true /\ inside c1 r /\ inside c2 r.
Proof.
  assert (H : auto_page_break fresh_slide = false) by reflexivity.
  assert (Hx : 0 <= 40) by discriminate.
  assert (Hy : 0 <= 55) by discriminate.
  split; [exact H|]. split; [exact Hx|]. split; [exact Hy|].
  exact (proj1 (text_cells_inside_frame fresh_slide H) 40 55 "50" "Test Cases" Hx Hy).
Defined.

(** ** Widgets centred on the page *)

Ltac centred :=
  unfold h_middle; cbn [h_extent fst snd];
  rewrite ?from_edge_nonneg by discriminate;
  rewrite ?cell_width_nonzero by discriminate;
  reflexivity.

(** X6.  On a page 297 wide, as every page of a [SlidePDF] is, the cells of
    the title and the subtitle, the code strip with its text cell and the bar
    of a fee row are centred horizontally: their vertical axis is the axis
    of the page. *)
Theorem full_width_widgets_centred (s : FPDF) :
  page_w s = 297 ->
  (forall text y size,
     exists s' c,
       title_text text y size s = Ok (tt, s') /\
       canvas s' = (canvas s ++ [c])%list /\ h_middle c == page_w s / 2)
  /\
  (forall text y size,
     exists s' c,
       subtitle_text text y size s = Ok (tt, s') /\
       canvas s' = (canvas s ++ [c])%list /\ h_middle c == page_w s / 2)
  /\
  (forall text y,
     exists s' r c,
       code_box text y s = Ok (tt, s') /\
       canvas s' = (canvas s ++ [r; c])%list /\
       h_middle r == page_w s / 2 /\ h_middle c == page_w s / 2)
  /\
  (forall label fee col y,
     exists s' r c1 c2,
       fee_row label fee col y s = Ok (tt, s') /\
       canvas s' = (canvas s ++ [r; c1; c2])%list /\
       is_rect r = true /\ h_middle r == page_w s / 2).
Proof.
  intros W. destruct s. cbn in W. subst page_w0.
  split; [|split; [|split]].
  - intros text y size. do 2 eexists. split; [eval_body; reflexivity|].
    split; [canvas_by_log|]. centred.
  - intros text y size. do 2 eexists. split; [eval_body; reflexivity|].
    split; [canvas_by_log|]. centred.
  - intros text y. do 3 eexists. split; [eval_body; reflexivity|].
    split; [canvas_by_log|]. split; centred.
  - intros label fee [[r g] b] y. do 4 eexists. split; [eval_body; reflexivity|].
    split; [canvas_by_log|]. split; [reflexivity|]. centred.
Qed.

Lemma full_width_widgets_centred_witness :
  page_w fresh_slide = 297 /\
  exists s' c,
    title_text "Sentiment Fee Hook" 55 44 fresh_slide = Ok (tt, s') /\
    canvas s' = (canvas fresh_slide ++ [c])%list /\
    h_middle c == page_w fresh_slide / 2.
Proof.
  assert (W : page_w fresh_slide = 297) by reflexivity.
  split; [exact W|].
  exact (proj1 (full_width_widgets_centred fresh_slide W) "Sentiment Fee Hook" 55 44).
Defined.

(** ** Bulleted items one after another *)

(** Where an item drawn at the cursor leaves the cursor: at the left margin,
    8 + 2 below where it was. *)
Lemma bullet_advance (cw : font_family -> font_style -> ascii -> Z)
      (text : string) (x : Q) (highlight : option string) (s : FPDF) :
  auto_page_break s = false ->
  0 <= cur_y s ->
  exists s',
    bullet cw text x None highlight s = Ok (tt, s') /\
    auto_page_break s' = false /\
    cur_y s' = cur_y s + 8 + 2 /\
    cur_x s' = l_margin s /\
    draw_color s' = draw_color s.
Proof.
  intros H Y. unfold bullet, split.
  destruct s. cbn in H, Y. subst auto_page_break0.
  assert (Y1 : 0 <= cur_y0 + 8 + 2) by lra.
  destruct highlight as [hl|];
    [destruct (PyStr.truthy (Some hl)) eqn:T;
     [destruct (PyStr.split text hl) as [[|p [|q [|r l]]]|] eqn:E;
      [| | | |destruct hl; discriminate]|]|];
    (eexists; split; [eval_body; reflexivity|];
     cbn [auto_page_break cur_y cur_x l_margin draw_color];
     rewrite !(from_edge_nonneg page_h0 cur_y0 Y);
     rewrite (from_edge_nonneg page_h0 (cur_y0 + 8 + 2) Y1);
     repeat split).
Qed.

(** X7.  Two bulleted items drawn one after the other without [y], on a
    canvas with automatic page breaks off and the cursor on the page: both
    return normally and the marker of the second is 8 + 2 below the marker of
    the first, whatever the texts and highlights. *)
Theorem bullets_stack (cw : font_family -> font_style -> ascii -> Z)
        (t1 t2 : string) (x : Q) (h1 h2 : option string) (s : FPDF) :
  auto_page_break s = false ->
  0 <= cur_y s ->
  exists s1 s2 r1 r2,
    bullet cw t1 x None h1 s = Ok (tt, s1) /\
    (bullet cw t1 x None h1 ;; bullet cw t2 x None h2) s = Ok (tt, s2) /\
    canvas s1 =
      (canvas s ++
       Ellipse x (cur_y s + 3) 4 4 PaintF (draw_color s) (255, 107, 107)%Z :: r1)%list /\
    canvas s2 =
      (canvas s1 ++
       Ellipse x (cur_y s + 8 + 2 + 3) 4 4 PaintF (draw_color s) (255, 107, 107)%Z
       :: r2)%list.
Proof.
  intros H Y.
  destruct (bullet_advance cw t1 x h1 s H Y) as (s1 & E1 & H1 & Y1 & _ & D1).
  destruct (bullet_marker cw t1 x h1 s) as (s1' & r1 & E1' & C1).
  rewrite E1 in E1'. injection E1' as <-.
  destruct (bullet_marker cw t2 x h2 s1) as (s2 & r2 & E2 & C2).
  exists s1, s2, r1, r2.
  split; [exact E1|]. split; [unfold bind; rewrite E1; exact E2|].
  split; [exact C1|]. rewrite C2, Y1, D1. reflexivity.
Qed.

Lemma bullets_stack_witness :
  auto_page_break (moved 25 115 fresh_slide) = false /\
  0 <= cur_y (moved 25 115 fresh_slide) /\
  exists s1 s2 r1 r2,
    bullet core_cw "Bounded fees" 25 None None (moved 25 115 fresh_slide) = Ok (tt, s1) /\
    (bullet core_cw "Bounded fees" 25 None None ;;
     bullet core_cw "Multi-keeper support" 25 None None) (moved 25 115 fresh_slide)
      = Ok (tt, s2) /\
    canvas s1 =
      (canvas (moved 25 115 fresh_slide) ++
       Ellipse 25 118 4 4 PaintF (0, 0, 0)%Z (255, 107, 107)%Z :: r1)%list /\
    canvas s2 =
      (canvas s1 ++ Ellipse 25 128 4 4 PaintF (0, 0, 0)%Z (255, 107, 107)%Z :: r2)%list.
Proof.
  assert (H : auto_page_break (moved 25 115 fresh_slide) = false) by reflexivity.
  assert (Y : 0 <= cur_y (moved 25 115 fresh_slide)) by discriminate.
  split; [exact H|]. split; [exact Y|].
  exact (bullets_stack core_cw "Bounded fees" "Multi-keeper support" 25 None None
                       (moved 25 115 fresh_slide) H Y).
Defined.

(** ** The columns of the data-source slide *)

Lemma after_rows_step (y : Q) (n : nat) : after_rows (y + 22) n = after_rows y n + 22.
Proof.
  revert y; induction n as [|n IH]; intros y; cbn [after_rows]; [reflexivity|apply IH].
Qed.

Lemma after_rows_nonneg (y : Q) (n : nat) : 0 <= y -> y <= after_rows y n.
Proof.
  revert y; induction n as [|n IH]; intros y Y; cbn [after_rows]; [lra|].
  assert (0 <= y + 22) by lra. specialize (IH (y + 22) H). lra.
Qed.

Lemma column_layout (items : list string) (x : Q) :
  forall (y0 : Q) (s : FPDF),
    auto_page_break s = false ->
    0 <= y0 ->
    exists s',
      for_acc items y0 (fun item y_pos =>
        set_fill_color 255 107 107 ;;
        ellipse x (y_pos + 3) 4 4 PaintF ;;
        set_font Helvetica Regular 13 ;;
        set_text_color 220 220 220 ;;
        set_xy (x + 8) y_pos ;;
        cell 100 8 item AlignL false ;;
        ret (y_pos + 22)) s = Ok (after_rows y0 (List.length items), s') /\
      canvas s' =
        (canvas s ++
         column_ops (draw_color s) x (from_edge (page_w s) (x + 8)) y0 items)%list.
Proof.
  induction items as [|item items IH]; intros y0 s H Y.
  - exists s. split; [reflexivity|]. cbn [column_ops]. now rewrite app_nil_r.
  - cbn [for_acc List.length after_rows]. unfold bind at 1.
    match goal with
    | |- context [match ?body s with _ => _ end] =>
        assert (B : exists s1,
          body s = Ok (y0 + 22, s1) /\
          auto_page_break s1 = false /\
          draw_color s1 = draw_color s /\
          page_w s1 = page_w s /\
          canvas s1 =
            (canvas s ++
             [Ellipse x (y0 + 3) 4 4 PaintF (draw_color s) (255, 107, 107)%Z;
              Cell (from_edge (page_w s) (x + 8)) y0 100 8 item AlignL
                   (Font Helvetica Regular 13) (220, 220, 220)%Z])%list)
    end.
    { destruct s. cbn in H. subst auto_page_break0.
      eexists. split; [eval_body; reflexivity|].
      cbn [auto_page_break draw_color page_w].
      rewrite (from_edge_nonneg page_h0 y0 Y).
      repeat (split; [reflexivity|]).
      canvas_by_log. }
    destruct B as (s1 & -> & H1 & D1 & W1 & C1).
    assert (Y1 : 0 <= y0 + 22) by lra.
    destruct (IH (y0 + 22) s1 H1 Y1) as (s' & E' & C').
    exists s'. split; [exact E'|].
    rewrite C', C1, D1, W1, <- app_assoc. reflexivity.
Qed.

(** X8.  A column of the data-source slide, with automatic page breaks off:
    each of its items gets a dot at [x] and a cell 100 wide at [x + 8], the
    first at ordinate 70 and each further one 22 lower, and the loop ends
    with [y_pos] 22 below the last item, that is [70 + 22 n] for [n]
    items. *)
Theorem source_column_layout (items : list string) (x : Q) (s : FPDF) :
  auto_page_break s = false ->
  exists y_end s',
    source_column items x s = Ok (y_end, s') /\
    canvas s' =
      (canvas s ++
       column_ops (draw_color s) x (from_edge (page_w s) (x + 8)) 70 items)%list /\
    y_end == 70 + 22 * inject_Z (Z.of_nat (List.length items)).
Proof.
  intros H.
  assert (Y : 0 <= 70) by discriminate.
  destruct (column_layout items x 70 s H Y) as (s' & E & C).
  exists (after_rows 70 (List.length items)), s'.
  split; [exact E|]. split; [exact C|].
  generalize (List.length items) as n. intros n.
  induction n as [|n IHn].
  - reflexivity.
  - cbn [after_rows]. rewrite after_rows_step, IHn, Nat2Z.inj_succ.
    unfold Z.succ. rewrite inject_Z_plus. ring.
Qed.

Lemma source_column_layout_witness :
  auto_page_break fresh_slide = false /\
  exists y_end s',
    source_column ["Fear & Greed Index (30%)"; "CoinGecko Global (20%)"] 25 fresh_slide
      = Ok (y_end, s') /\
    skipn 1 (canvas s') =
      [Ellipse 25 73 4 4 PaintF (0, 0, 0)%Z (255, 107, 107)%Z;
       Cell 33 70 100 8 "Fear & Greed Index (30%)" AlignL
            (Font Helvetica Regular 13) (220, 220, 220)%Z;
       Ellipse 25 95 4 4 PaintF (0, 0, 0)%Z (255, 107, 107)%Z;
       Cell 33 92 100 8 "CoinGecko Global (20%)" AlignL
            (Font Helvetica Regular 13) (220, 220, 220)%Z] /\
    y_end == 114.
Proof.
  assert (H : auto_page_break fresh_slide = false) by reflexivity.
  split; [exact H|].
  destruct (source_column_layout
              ["Fear & Greed Index (30%)"; "CoinGecko Global (20%)"] 25 fresh_slide H)
    as (y_end & s' & E & C & Y).
  exists y_end, s'. split; [exact E|]. split; [rewrite C; reflexivity|].
  rewrite Y. reflexivity.
Defined.

(** ** A new slide *)

Lemma no_ops_on_later_page (l : list (nat * draw_op)) (p n : nat) :
  Forall (fun e => fst e <= p)%nat l -> (p < n)%nat ->
  filter (fun e => Nat.eqb (fst e) n) l = [].
Proof.
  intros F Hn. induction F as [|e l He _ IH]; cbn; [reflexivity|].
  destruct (Nat.eqb_spec (fst e) n) as [Heq|_]; [lia|exact IH].
Qed.

Lemma later_op_not_on_page (e : nat * draw_op) (l : list (nat * draw_op)) (n : nat) :
  (n < fst e)%nat ->
  filter (fun e' => Nat.eqb (fst e') n) (l ++ [e]) = filter (fun e' => Nat.eqb (fst e') n) l.
Proof.
  intros Hn. rewrite filter_app. cbn.
  destruct (Nat.eqb_spec (fst e) n) as [Heq|_]; [lia|apply app_nil_r].
Qed.

(** X9.  On a canvas whose content lies on pages already started,
    [add_slide] starts the next page and that page holds the background
    rectangle and nothing else; the earlier pages are as they were; the
    cursor is at the top-left margin, and font, text colour and draw colour
    carry over from the previous slide. *)
Theorem new_slide_holds_only_background (s : FPDF) (bg : color) :
  on_started_pages s ->
  exists s',
    add_slide bg s = Ok (tt, s') /\
    page s' = S (page s) /\
    page_ops (page s') s' = [Rect 0 0 297 210 PaintF (draw_color s) bg] /\
    (forall n, (n <= page s)%nat -> page_ops n s' = page_ops n s) /\
    on_started_pages s' /\
    (cur_x s', cur_y s') = (l_margin s, t_margin s) /\
    current_font s' = current_font s /\
    (text_color s', draw_color s') = (text_color s, draw_color s).
Proof.
  intros P. destruct bg as [[r g] b]. destruct s. unfold on_started_pages in *.
  cbn [page log] in P.
  eexists. split; [eval_body; reflexivity|].
  split; [reflexivity|]. unfold page_ops. cbn [page log draw_color].
  split.
  { rewrite filter_app, (no_ops_on_later_page _ page0) by (auto; lia).
    cbn. now rewrite Nat.eqb_refl. }
  split.
  { intros n Hn. now rewrite later_op_not_on_page by (cbn; lia). }
  split.
  { unfold on_started_pages. cbn [page log]. apply Forall_app. split.
    - eapply Forall_impl; [|exact P]. cbn. intros e He. lia.
    - constructor; [cbn; lia|constructor]. }
  repeat split.
Qed.

Lemma new_slide_holds_only_background_witness :
  on_started_pages heading_drawn /\
  exists s',
    add_slide default_bg heading_drawn = Ok (tt, s') /\
    page s' = 2%nat /\
    page_ops 2 s' = [Rect 0 0 297 210 PaintF (0, 0, 0)%Z (26, 26, 46)%Z] /\
    current_font s' = Some (Font Helvetica Bold 28).
Proof.
  assert (P : on_started_pages heading_drawn).
  { unfold on_started_pages. vm_compute. repeat constructor. }
  split; [exact P|].
  destruct (new_slide_holds_only_background heading_drawn default_bg P)
    as (s' & E & Pg & B & _ & _ & _ & F & _).
  exists s'. split; [exact E|]. split; [exact Pg|].
  split; [rewrite Pg in B; exact B|]. rewrite F. vm_compute. reflexivity.
Defined.

(** ** Style left behind by the code strip *)

(** X10.  [code_box] leaves Courier 12 and its cyan text colour current.  A
    cell written after it without a new [set_font], as the labels 'Local
    Demo' and 'Deploy & Run Keeper' of the quick-start slide are, is
    therefore set in Courier 12 cyan, whatever font was current before the
    strip. *)
Theorem cell_after_code_box_is_courier
        (s : FPDF) (code : string) (y a b w h : Q) (label : string) :
  exists s' r c cx cy cw',
    (code_box code y ;; set_xy a b ;; cell w h label AlignL false) s = Ok (tt, s') /\
    canvas s' =
      (canvas s ++
       [r; c; Cell cx cy cw' h label AlignL (Font Courier Regular 12) (72, 219, 251)%Z])%list /\
    current_font s' = Some (Font Courier Regular 12) /\
    text_color s' = (72, 219, 251)%Z.
Proof.
  destruct s. unfold code_box.
  do 6 eexists. split; [eval_body; reflexivity|].
  split; [canvas_by_log|]. split; reflexivity.
Qed.

(** ** A row of chips on the standard metrics *)

Lemma nth_nonneg (l : list Z) (n : nat) (d : Z) :
  Forall (fun z => 0 <= z)%Z l -> (0 <= d)%Z -> (0 <= nth n l d)%Z.
Proof.
  intros F Hd. revert n. induction F as [|z l Hz _ IH]; intros [|n]; cbn; auto.
Qed.

Lemma core_cw_nonneg (fam : font_family) (sty : font_style) (c : ascii) :
  (0 <= core_cw fam sty c)%Z.
Proof.
  destruct fam, sty; cbn [core_cw]; try lia;
    apply nth_nonneg; try lia;
    unfold helvetica_widths, helvetica_bold_widths;
    repeat (apply Forall_cons; [lia|]); apply Forall_nil.
Qed.

Lemma chips_in_a_row_do_not_overlap_witness :
  (forall fam sty c, 0 <= core_cw fam sty c)%Z /\
  auto_page_break before_first_chip = false /\
  current_font before_first_chip = Some (Font Helvetica Regular 18) /\
  0 <= size_pt (Font Helvetica Regular 18) /\
  exists xe s' ops,
    tag_run core_cw ["Dynamic Fee"; "Custom Hooks"; "Oracle"] 60 130 before_first_chip
      = Ok (xe, s') /\
    canvas s' = (canvas before_first_chip ++ ops)%list /\
    ForallOrdPairs (fun a b => snd a + 5 <= fst b) (map h_extent (filter is_rect ops)).
Proof.
  assert (H : auto_page_break before_first_chip = false) by reflexivity.
  assert (F : current_font before_first_chip = Some (Font Helvetica Regular 18))
    by reflexivity.
  assert (Z : 0 <= size_pt (Font Helvetica Regular 18)) by discriminate.
  split; [exact core_cw_nonneg|]. split; [exact H|]. split; [exact F|]. split; [exact Z|].
  destruct (chips_in_a_row_do_not_overlap core_cw ["Dynamic Fee"; "Custom Hooks"; "Oracle"]
              60 130 before_first_chip (Font Helvetica Regular 18) core_cw_nonneg H F Z)
    as (xe & s' & ops & E & C & _ & O).
  exists xe, s', ops. split; [exact E|]. split; [exact C|exact O].
Defined.
